(** * Precipitation-field importers (pysteps [io/importers.py])

    A shallow embedding of the three importers of [src/io/importers.py]
    ([import_pgm], [import_aqc], [import_bom_rf3]) and of their helpers,
    and of the registry [get_method] of [src/pysteps/utils/interface.py],
    followed by the properties stated about them.

    Conventions of the embedding:
    - a Python exception is a constructor of [exn]; a call that may raise
      returns a [result];
    - file access is recorded in a trace of [event]s threaded through the
      [IO] monad, so that "no file was touched" is a statement about the
      trace;
    - numpy [float64] arithmetic is reached through the interface [Arith];
      its instance [binary64] is IEEE-754 double precision (Rocq's primitive
      floats); the instance [ideal], exact real arithmetic with a NaN, serves
      only as a second arithmetic in worked runs of statements that hold for
      every arithmetic;
    - the interpreter is Python 3: a [bytes] object is the string of its
      bytes, and a [str] is represented by its UTF-8 encoding, so that
      decoding [bytes] is a check of well-formedness, while a [str] has no
      [decode];
    - the capabilities the module imports (matplotlib's [imread], PIL,
      netCDF4, pyproj, gzip, the C library's [pow], Python's [float] and
      [str]) are parameters of the development. *)

From Stdlib Require Import ZArith QArith Reals Lia List String Ascii.
From Stdlib Require Import Floats Uint63.
From stdpp Require Import base option list gmap strings pretty.

Local Open Scope string_scope.
Local Open Scope list_scope.
Local Open Scope Z_scope.

(** ** Exceptions and results *)

Inductive exn : Type :=
  | PyException (msg : string)        (* [raise Exception(msg)] *)
  | ValueError (msg : string)
  | IndexError
  | KeyError (key : string)
  | TypeError
  | AttributeError (name : string)
  | UnboundLocalError (name : string)
  | ZeroDivisionError
  | UnicodeDecodeError
  | OverflowError
  | OSError (errno : Z)               (* a failed call of the C library *)
  | IOError (path : string)           (* raised by the file-access layer *)
  | LibraryError (msg : string).      (* raised inside an external decoder *)

Inductive result (A : Type) : Type :=
  | Ok (a : A)
  | Raise (e : exn).
Arguments Ok {A} a.
Arguments Raise {A} e.

#[export] Instance result_ret : MRet result := fun A a => Ok a.
#[export] Instance result_bind : MBind result := fun A B k m =>
  match m with
  | Ok a => k a
  | Raise e => Raise e
  end.

(** ** Floating-point arithmetic *)

(** The operations of [float64] the importers use.  [of_int] is Python's
    conversion of an [int] operand, [of_dec] the value of a decimal
    literal, [fle] the comparison [<=] (false on NaN). *)
Class Arith (F : Type) : Type := {
  of_int : Z -> F;
  of_dec : Q -> F;
  fsub : F -> F -> F;
  fmul : F -> F -> F;
  fdiv : F -> F -> F;
  fnan : F;
  fle : F -> F -> Prop
}.

(** [x ** y] on floats, computed by the C library. *)
Class Libm (F : Type) : Type := {
  fpow : F -> F -> F
}.

Module Binary64.

(** Conversion of an integer of magnitude below 2^63 (rounded to nearest
    even above 2^53, as Python does). *)
Definition of_Z (z : Z) : float :=
  if z <? 0 then PrimFloat.opp (PrimFloat.of_uint63 (Uint63.of_Z (- z)))
  else PrimFloat.of_uint63 (Uint63.of_Z z).

(** A decimal literal [p/q] with [p], [q] below 2^53: both are exact, so
    the correctly rounded quotient is the double nearest to the literal. *)
Definition of_Q (q : Q) : float :=
  PrimFloat.div (of_Z (Qnum q)) (of_Z (Zpos (Qden q))).

(** The rational number a finite double stands for. *)
Definition SF2Q (x : spec_float) : option Q :=
  match x with
  | S754_zero _ => Some 0%Q
  | S754_finite s m e =>
      Some ((if s then -1 else 1) * inject_Z (Zpos m) * Qpower 2 e)%Q
  | _ => None
  end.

Definition value (x : float) : option Q := SF2Q (Prim2SF x).

End Binary64.

#[export] Instance binary64 : Arith float := {
  of_int := Binary64.of_Z;
  of_dec := Binary64.of_Q;
  fsub := PrimFloat.sub;
  fmul := PrimFloat.mul;
  fdiv := PrimFloat.div;
  fnan := PrimFloat.nan;
  fle x y := PrimFloat.leb x y = true
}.

(** ** numpy arrays *)

(** A two-dimensional array is the list of its rows. *)
Abbreviation array A := (list (list A)).

Definition pixel {A} (R : array A) (r c : nat) : option A :=
  row ← R !! r; row !! c.

Definition amap {A B} (f : A -> B) (R : array A) : array B :=
  (fun row : list A => f <$> row) <$> R.

(** [R[MASK] = v] for a boolean mask of the shape of [R]. *)
Definition putmask {A} (R : array A) (MASK : array bool) (v : A) : array A :=
  zip_with (zip_with (fun x (m : bool) => if m then v else x)) R MASK.

(** ** The PGM importer: payload decoding *)

Section PgmDecode.
Context {F : Type} {A : Arith F}.

(** Lines 80-83 of [import_pgm]:
<<
  MASK = R == metadata["missingval"]
  R = R.astype(float)
  R[MASK] = np.nan
  R = (R - 64.0) / 2.0
>> *)
Definition pgm_decode (missingval : Z) (R : array Z) : array F :=
  let MASK := amap (fun s => s =? missingval) R in
  let R := amap of_int R in
  let R := putmask R MASK fnan in
  amap (fun x => fdiv (fsub x (of_dec 64.0)) (of_dec 2.0)) R.

End PgmDecode.

(** ** Python values, strings and dictionaries *)

(** The values the importers store in their dictionaries. *)
Inductive pyval (F : Type) : Type :=
  | VList (l : list string)
  | VInt (n : Z)
  | VStr (s : string)
  | VFloat (x : F).
Arguments VList {F} l.
Arguments VInt {F} n.
Arguments VStr {F} s.
Arguments VFloat {F} x.

Module Py.

(** [s[0]] *)
Definition head (s : string) : result ascii :=
  match s with
  | EmptyString => Raise IndexError
  | String c _ => Ok c
  end.

(** [s[1:]] *)
Definition tail (s : string) : string :=
  match s with
  | EmptyString => EmptyString
  | String _ s' => s'
  end.

(** The ASCII characters [str.strip] and [int] treat as white space.  The
    white space and the digits of Unicode outside ASCII are left out: the
    statements that depend on them are about ASCII text. *)
Definition is_space (c : ascii) : bool :=
  let n := nat_of_ascii c in
  ((9 <=? n) && (n <=? 13) || (28 <=? n) && (n <=? 32))%nat.

Fixpoint lstrip (s : string) : string :=
  match s with
  | EmptyString => EmptyString
  | String c s' => if is_space c then lstrip s' else s
  end.

(** [s.strip()] *)
Definition strip (s : string) : string :=
  String.rev (lstrip (String.rev (lstrip s))).

(** [s.split(' ')]: the fields between single blanks, empty ones kept. *)
Fixpoint split (s : string) : list string :=
  match s with
  | EmptyString => [EmptyString]
  | String c s' =>
      if Ascii.eqb c " " then EmptyString :: split s'
      else match split s' with
           | [] => [String c EmptyString]
           | w :: ws => String c w :: ws
           end
  end.

Definition digit (c : ascii) : option Z :=
  let n := nat_of_ascii c in
  if ((48 <=? n) && (n <=? 57))%nat then Some (Z.of_nat n - 48) else None.

(** The digits of a decimal literal, most significant first; a single
    underscore may separate two digits. *)
Fixpoint digits (acc : Z) (s : string) : option Z :=
  match s with
  | EmptyString => Some acc
  | String c s' =>
      match digit c with
      | Some d => digits (10 * acc + d) s'
      | None =>
          if Ascii.eqb c "_" then
            match s' with
            | String c' s'' =>
                match digit c' with
                | Some d => digits (10 * acc + d) s''
                | None => None
                end
            | EmptyString => None
            end
          else None
      end
  end.

Definition unsigned (s : string) : option Z :=
  match s with
  | String c s' =>
      match digit c with
      | Some d => digits d s'
      | None => None
      end
  | EmptyString => None
  end.

(** [int(s)] on ASCII text, base 10.  The message of the error goes on
    with the literal, which is left out. *)
Definition int (s : string) : result Z :=
  let body := strip s in
  let parsed :=
    match body with
    | String "-" s' => Z.opp <$> unsigned s'
    | String "+" s' => unsigned s'
    | _ => unsigned body
    end in
  match parsed with
  | Some n => Ok n
  | None => Raise (ValueError "invalid literal for int() with base 10")
  end.

Section Values.
Context {F : Type}.

(** [d[k]] on a dictionary. *)
Definition getitem (d : gmap string (pyval F)) (k : string)
  : result (pyval F) :=
  match d !! k with
  | Some v => Ok v
  | None => Raise (KeyError k)
  end.

(** [list(v)] for a sequence of strings; a string is the sequence of
    its characters. *)
Definition elements (v : pyval F) : result (list string) :=
  match v with
  | VList l => Ok l
  | VStr s => Ok ((fun c => String c EmptyString) <$> list_ascii_of_string s)
  | VInt _ | VFloat _ => Raise TypeError
  end.

(** [v[0]] *)
Definition item0 (v : pyval F) : result string :=
  l ← elements v;
  match l with
  | x :: _ => Ok x
  | [] => Raise IndexError
  end.

End Values.

End Py.

(** ** The PGM importer: header extraction *)

(** A byte lies between two bounds. *)
Definition byte_in (lo hi : N) (c : ascii) : bool :=
  let n := N_of_ascii c in ((lo <=? n) && (n <=? hi))%N.

(** Well-formed UTF-8, as the strict decoder of Python 3 accepts it: no
    overlong form, no surrogate, nothing above U+10FFFF, no sequence cut
    short. *)
Fixpoint utf8 (b : string) : bool :=
  match b with
  | EmptyString => true
  | String c b1 =>
      if byte_in 0 127 c then utf8 b1
      else if byte_in 194 223 c then
        match b1 with
        | String c1 b2 => byte_in 128 191 c1 && utf8 b2
        | EmptyString => false
        end
      else if byte_in 224 239 c then
        match b1 with
        | String c1 (String c2 b3) =>
            (if byte_in 224 224 c then byte_in 160 191 c1
             else if byte_in 237 237 c then byte_in 128 159 c1
             else byte_in 128 191 c1)
            && byte_in 128 191 c2 && utf8 b3
        | _ => false
        end
      else if byte_in 240 244 c then
        match b1 with
        | String c1 (String c2 (String c3 b4)) =>
            (if byte_in 240 240 c then byte_in 144 191 c1
             else if byte_in 244 244 c then byte_in 128 143 c1
             else byte_in 128 191 c1)
            && byte_in 128 191 c2 && byte_in 128 191 c3 && utf8 b4
        | _ => false
        end
      else false
  end.

(** Text of ASCII characters only. *)
Fixpoint is_ascii (s : string) : bool :=
  match s with
  | EmptyString => true
  | String c s' => byte_in 0 127 c && is_ascii s'
  end.

(** [b.decode()] on a [bytes] object: the text, whose representation is
    [b] itself, or the error of the strict UTF-8 decoder. *)
Definition bytes_decode (b : string) : result string :=
  if utf8 b then Ok b else Raise UnicodeDecodeError.

(** [s.decode()] on a [str]: Python 3 knows no such attribute. *)
Definition str_decode {A} (s : string) : result A :=
  Raise (AttributeError "decode").

(** A binary stream is the list of the lines still to be read, each with
    its line terminator; [readline] returns the empty [bytes] once the list
    is exhausted. *)
Definition readline (f : list string) : string * list string :=
  match f with
  | [] => (EmptyString, [])
  | l :: f' => (l, f')
  end.

(** The lines of a file, terminators kept. *)
Fixpoint lines (s : string) : list string :=
  match s with
  | EmptyString => []
  | String c s' =>
      if Ascii.eqb c "010" then String c EmptyString :: lines s'
      else match lines s' with
           | [] => [String c EmptyString]
           | l :: ls => String c l :: ls
           end
  end.

Section PgmHeader.
Context {F : Type}.

Abbreviation metadata := (gmap string (pyval F)).

(** Lines 134-136: read lines until one begins with [#].
<<
  l = f.readline().decode()
  while l[0] != '#':
      l = f.readline().decode()
>>
    At the end of the stream [l] is empty and [l[0]] raises.  The first
    character of a text is [#] exactly when the first byte of its encoding
    is. *)
Fixpoint seek_comment (f : list string) : result (string * list string) :=
  match f with
  | [] =>
      l ← bytes_decode EmptyString;
      c ← Py.head l;
      Ok (l, [])
  | b :: f' =>
      l ← bytes_decode b;
      c ← Py.head l;
      if negb (Ascii.eqb c "#") then seek_comment f' else Ok (l, f')
  end.

(** The body of the second loop, lines 138-146: the entry a comment line
    contributes; both branches then read the next line. *)
Definition comment_entry (md : metadata) (l : string) : metadata :=
  let x := Py.split (Py.strip (Py.tail l)) in
  if (2 <=? length x)%nat then
    match x with
    | k :: v => <[k := VList v]> md
    | [] => md
    end
  else md.

(** Lines 137-146: consume the comment block; returns the dictionary, the
    line that ended the block and the rest of the stream.
<<
  while l[0] == '#':
      x = l[1:].strip().split(' ')
      if len(x) >= 2:
          k = x[0]
          v = x[1:]
          metadata[k] = v
      else:
          l = f.readline().decode()
          continue
      l = f.readline().decode()
>> *)
Fixpoint read_comments (md : metadata) (l : string) (f : list string)
  : result (metadata * string * list string) :=
  c ← Py.head l;
  if Ascii.eqb c "#" then
    let md := comment_entry md l in
    match f with
    | [] =>
        l' ← bytes_decode EmptyString;
        c ← Py.head l';
        Ok (md, l', [])
    | b :: f' =>
        l' ← bytes_decode b;
        read_comments md l' f'
    end
  else Ok (md, l, f).

(** Lines 134-148 on an open binary stream. *)
Definition pgm_header (f : list string) : result metadata :=
  '(l, f) ← seek_comment f;
  '(md, l, f) ← read_comments ∅ l f;
  let '(b, f) := readline f in
  l ← bytes_decode b;
  missingval ← Py.int l;
  Ok (<["missingval" := VInt missingval]> md).

(** Lines 151-153. *)
Definition pgm_constants (md : metadata) : metadata :=
  <["unit" := VStr "dBZ"]>
    (<["timestep" := VInt 5]>
       (<["institution" := VStr "Finnish Meteorological Institute"]> md)).

End PgmHeader.

(** ** File access *)

(** What an importer does to the outside world, in order. *)
Inductive event : Type :=
  | EvOpen (path : string)
  | EvClose (path : string)
  | EvPrint (text : string).

Definition trace : Type := list event.

(** A computation that may touch files: it extends the trace and returns a
    value or raises. *)
Definition IO (A : Type) : Type := trace -> result A * trace.

#[export] Instance IO_ret : MRet IO := fun A a t => (Ok a, t).
#[export] Instance IO_bind : MBind IO := fun A B k m t =>
  match m t with
  | (Ok a, t') => k a t'
  | (Raise e, t') => (Raise e, t')
  end.

Definition lift {A} (r : result A) : IO A := fun t => (r, t).
Definition raise {A} (e : exn) : IO A := lift (Raise e).
Definition emit (e : event) : IO unit := fun t => (Ok tt, t ++ [e]).

(** The files of the system, by path, each with its content. *)
Abbreviation filesystem := (gmap string string).

(** Opening a file is an access whether or not the file exists. *)
Definition open_file (fs : filesystem) (path : string) : IO string :=
  _ ← emit (EvOpen path);
  match fs !! path with
  | Some content => mret content
  | None => raise (IOError path)
  end.

Definition close_file (path : string) : IO unit := emit (EvClose path).

(** The state of the interpreter: the flags the module sets when it is
    loaded (lines 36-50), and the way it reads a file opened in text mode,
    [text_readline content] being the first line of a file of that content
    as a [str], or the error of decoding the file with the preferred
    encoding. *)
Record runtime : Type := {
  netcdf4_imported : bool;
  pil_imported : bool;
  pyproj_imported : bool;
  text_readline : string -> result string
}.

(** ** The netCDF dataset read by the BoM importer *)

(** The attributes of the variable [proj]; [None] is an attribute the
    variable does not carry. *)
Record ncproj (F : Type) : Type := {
  grid_mapping_name : option string;
  longitude_of_central_meridian : option F;
  latitude_of_projection_origin : option F;
  standard_parallel : option (list F)
}.
Arguments grid_mapping_name {F} _.
Arguments longitude_of_central_meridian {F} _.
Arguments latitude_of_projection_origin {F} _.
Arguments standard_parallel {F} _.

(** The variables of the dataset the importer looks up; [None] is a name
    absent from [ds.variables.keys()].  Time stamps are whole seconds since
    the epoch. *)
Record dataset (F : Type) : Type := {
  ds_precipitation : option (array F);
  ds_valid_time : option Z;
  ds_start_time : option Z;
  ds_proj : option (ncproj F)
}.
Arguments ds_precipitation {F} _.
Arguments ds_valid_time {F} _.
Arguments ds_start_time {F} _.
Arguments ds_proj {F} _.

(** [getattr(obj, name)] *)
Definition getattr {A} (name : string) (field : option A) : result A :=
  match field with
  | Some v => Ok v
  | None => Raise (AttributeError name)
  end.

(** Reading a local variable; [None] is a name not yet bound. *)
Definition local {A} (name : string) (v : option A) : result A :=
  match v with
  | Some x => Ok x
  | None => Raise (UnboundLocalError name)
  end.

(** [a, b = l] *)
Definition unpack2 {A} (l : list A) : result (A * A) :=
  match l with
  | [a; b] => Ok (a, b)
  | _ => Raise (ValueError "wrong number of values to unpack")
  end.

(** The instants a [datetime] can hold, in seconds since the epoch: from
    0001-01-01 00:00:00 to 9999-12-31 23:59:59. *)
Definition datetime_min : Z := -62135596800.
Definition datetime_max : Z := 253402300799.

(** The year of an instant in the proleptic Gregorian calendar, as
    [gmtime] computes it, and its value in a C [int]. *)
Definition year_of (t : Z) : Z :=
  let z := t / 86400 + 719468 in
  let era := z / 146097 in
  let doe := z - era * 146097 in
  let yoe := (doe - doe / 1460 + doe / 36524 - doe / 146096) / 365 in
  let doy := doe - (365 * yoe + yoe / 4 - yoe / 100) in
  let mp := (5 * doy + 2) / 153 in
  yoe + era * 400 + (if mp <? 10 then 0 else 1).

Definition c_int (n : Z) : Z := (n + 2 ^ 31) mod 2 ^ 32 - 2 ^ 31.

(** [datetime.datetime.utcfromtimestamp(t)] for a whole number of seconds,
    on Linux with a 64-bit [time_t]; a [datetime] is represented by its
    instant.  Outside the years 1 to 9999 the call raises: [OverflowError]
    when [t] does not fit [time_t], [OSError] when [gmtime] cannot express
    the year (counted from 1900) in an [int], [ValueError] otherwise. *)
Definition utcfromtimestamp (t : Z) : result Z :=
  if (t <? - 2 ^ 63) || (2 ^ 63 <=? t) then Raise OverflowError
  else if (t <? -67768040609740800) || (67768036191676799 <? t)
  then Raise (OSError 75)
  else if (t <? datetime_min) || (datetime_max <? t)
  then Raise (ValueError ("year " +:+ pretty (c_int (year_of t))
                          +:+ " is out of range"))
  else Ok t.

(** [(valid_time - start_time).seconds]: the seconds field of a normalised
    [timedelta], between 0 and 86399. *)
Definition timedelta_seconds (valid_time start_time : Z) : Z :=
  (valid_time - start_time) mod 86400.

Section Importers.
Context {F : Type} {A : Arith F} {L : Libm F}.

Abbreviation dict := (gmap string (pyval F)).

(** The state of the interpreter and of the disk. *)
Variable rt : runtime.
Variable fs : filesystem.

(** The library calls, as functions of the content of the file. *)
Variable gunzip : string -> result string.
Variable imread_decode : string -> result (array Z).
Variable pil_decode : string -> result (array Z).
Variable nc_decode : string -> result (dataset F).
Variable pyproj_Proj : string -> result (F -> F -> F * F).
Variable py_float : string -> result F.
Variable py_str : F -> string.

(** [gzip.open(filename, 'r')] *)
Definition gzip_open (filename : string) : IO string :=
  content ← open_file fs filename;
  lift (gunzip content).

(** [imread(filename)] and [imread(fileobj)] *)
Definition imread (filename : string) : IO (array Z) :=
  content ← open_file fs filename;
  R ← lift (imread_decode content);
  _ ← close_file filename;
  mret R.

Definition imread_stream (content : string) : IO (array Z) :=
  lift (imread_decode content).

(** *** PGM *)

(** Lines 126-155.  With [gzipped == False] the file is opened in text
    mode: [f.readline()] at line 134 is a [str], and the [.decode()] applied
    to it raises before any line is examined.  With [gzipped == True] the
    stream is binary and every line read is decoded. *)
Definition _import_pgm_metadata (filename : string) (gzipped : bool)
  : IO dict :=
  if negb gzipped then
    f ← open_file fs filename;
    l ← lift (text_readline rt f);
    lift (str_decode l)
  else
    f ← gzip_open filename;
    metadata ← lift (pgm_header (lines f));
    _ ← close_file filename;
    mret (pgm_constants metadata).

(** [metadata[k][0]] *)
Definition first_of (metadata : dict) (k : string) : result string :=
  v ← Py.getitem metadata k;
  Py.item0 v.

(** [[float(v) for v in metadata[k]]] *)
Definition floats_of (metadata : dict) (k : string) : result (list F) :=
  v ← Py.getitem metadata k;
  l ← Py.elements v;
  mapM py_float l.

(** Lines 87-124. *)
Definition _import_pgm_geodata (metadata : dict) : result dict :=
  let geodata : dict := ∅ in
  let projdef := "" in
  type ← first_of metadata "type";
  if negb (String.eqb type "stereographic")
  then Raise (ValueError ("unknown projection " +:+ type))
  else
    let projdef := projdef +:+ "+proj=stere " in
    lon_0 ← first_of metadata "centrallongitude";
    let projdef := projdef +:+ (" +lon_0=" +:+ lon_0) +:+ "E" in
    lat_0 ← first_of metadata "centrallatitude";
    let projdef := projdef +:+ (" +lat_0=" +:+ lat_0) +:+ "N" in
    lat_ts ← first_of metadata "truelatitude";
    let projdef := projdef +:+ (" +lat_ts=" +:+ lat_ts) in
    let projdef := projdef +:+ " +a=6371288" in
    let projdef := projdef +:+ " +x_0=380886.310" in
    let projdef := projdef +:+ " +y_0=3395677.920" in
    let projdef := projdef +:+ " +no_defs" in
    let geodata := <["projection" := VStr projdef]> geodata in
    ll ← floats_of metadata "bottomleft";
    '(ll_lon, ll_lat) ← unpack2 ll;
    ur ← floats_of metadata "topright";
    '(ur_lon, ur_lat) ← unpack2 ur;
    pr ← pyproj_Proj projdef;
    let '(x1, y1) := pr ll_lon ll_lat in
    let '(x2, y2) := pr ur_lon ur_lat in
    let geodata := <["x1" := VFloat x1]> geodata in
    let geodata := <["y1" := VFloat y1]> geodata in
    let geodata := <["x2" := VFloat x2]> geodata in
    let geodata := <["y2" := VFloat y2]> geodata in
    xpixelsize ← (s ← first_of metadata "metersperpixel_x"; py_float s);
    let geodata := <["xpixelsize" := VFloat xpixelsize]> geodata in
    ypixelsize ← (s ← first_of metadata "metersperpixel_y"; py_float s);
    let geodata := <["ypixelsize" := VFloat ypixelsize]> geodata in
    let geodata := <["yorigin" := VStr "upper"]> geodata in
    Ok geodata.

(** Lines 52-85.  [metadata["missingval"]] is the integer stored at line
    148; the samples are compared with it as integers. *)
Definition import_pgm (filename : string) (gzipped : bool)
  : IO (array F * dict * dict) :=
  if negb (pyproj_imported rt)
  then raise (PyException "pyproj not imported")
  else
    metadata ← _import_pgm_metadata filename gzipped;
    R ← (if negb gzipped then imread filename
         else f ← gzip_open filename; imread_stream f);
    geodata ← lift (_import_pgm_geodata metadata);
    missingval ← lift (Py.getitem metadata "missingval");
    match missingval with
    | VInt missingval => mret (pgm_decode missingval R, geodata, metadata)
    | _ => raise TypeError
    end.

(** *** AQC *)

(** The right-hand sides of lines 192-197 for the index [i], with
    [A = 316.0] and [b = 1.5]. *)
Definition aqc_entry (i : Z) : F :=
  let A := of_dec 316.0 in
  let b := of_dec 1.5 in
  if (i <? 2) || ((250 <? i) && (i <? 255)) then of_dec 0.0
  else if i =? 255 then fnan
  else
    fdiv
      (fmul
         (fpow
            (fdiv
               (fpow (of_dec 10.0)
                  (fdiv (fsub (of_int i) (of_dec 71.2)) (of_dec 20.0)))
               A)
            (fdiv (of_dec 1.0) b))
         (of_int 60))
      (of_int 5).

(** Lines 189-197: [np.zeros(256)] filled by the loop over [range(256)]. *)
Definition lut : list F :=
  fold_left (fun lut i => <[Z.to_nat i := aqc_entry i]> lut)
    (seqZ 0 256) (replicate 256 (of_dec 0.0)).

(** [lut[i]] for one integer index of numpy: a negative index counts from
    the end, an index outside the table raises. *)
Definition lut_item (i : Z) : result F :=
  let k := if i <? 0 then i + Z.of_nat (length lut) else i in
  if k <? 0 then Raise IndexError
  else match lut !! Z.to_nat k with
       | Some v => Ok v
       | None => Raise IndexError
       end.

(** Line 200: [R = lut[B]]. *)
Definition apply_lut (B : array Z) : result (array F) :=
  mapM (mapM lut_item) B.

(** Lines 204-233. *)
Definition _import_aqc_geodata : dict :=
  let geodata : dict := ∅ in
  let projdef := "" in
  let projdef := projdef +:+ "+proj=somerc " in
  let projdef := projdef +:+ " +lon_0=7.439583333333333" in
  let projdef := projdef +:+ " +lat_0=46.95240555555556" in
  let projdef := projdef +:+ " +k_0=1" in
  let projdef := projdef +:+ " +x_0=600000" in
  let projdef := projdef +:+ " +y_0=200000" in
  let projdef := projdef +:+ " +ellps=bessel" in
  let projdef := projdef +:+ " +towgs84=674.374,15.056,405.346,0,0,0,0" in
  let projdef := projdef +:+ " +units=m" in
  let projdef := projdef +:+ " +no_defs" in
  let geodata := <["projection" := VStr projdef]> geodata in
  let geodata := <["x1" := VInt 255000]> geodata in
  let geodata := <["y1" := VInt 160000]> geodata in
  let geodata := <["x2" := VInt 965000]> geodata in
  let geodata := <["y2" := VInt 480000]> geodata in
  let geodata := <["xpixelsize" := VInt 1000]> geodata in
  let geodata := <["ypixelsize" := VInt 1000]> geodata in
  let geodata := <["yorigin" := VStr "upper"]> geodata in
  geodata.

(** Lines 157-202.  [Image.open] followed by [np.array(B, dtype=int)]
    yields the palette indices of the image. *)
Definition import_aqc (filename : string) : IO (array F * dict * dict) :=
  if negb (pil_imported rt)
  then raise (PyException "PIL not imported")
  else
    let metadata : dict := ∅ in
    let metadata := <["institution" := VStr "MeteoSwiss"]> metadata in
    let metadata := <["timestep" := VInt 5]> metadata in
    let metadata := <["unit" := VStr "mm/h"]> metadata in
    let geodata := _import_aqc_geodata in
    B ← open_file fs filename;
    B ← lift (pil_decode B);
    R ← lift (apply_lut B);
    mret (R, geodata, metadata).

(** *** BoM Rainfields3 *)

(** [Dataset(filename)] *)
Definition Dataset (filename : string) : IO (dataset F) :=
  content ← open_file fs filename;
  lift (nc_decode content).

(** [x / n] for a float [x] and an integer [n]. *)
Definition truediv (x : F) (n : Z) : result F :=
  if n =? 0 then Raise ZeroDivisionError else Ok (fdiv x (of_int n)).

(** Lines 262-287.  [time_step] is assigned on one path only; it is
    [None] while unbound. *)
Definition _import_bom_rf3_data (filename : string)
  : IO (option (array F)) :=
  _ ← emit (EvPrint filename);
  ds_rainfall ← Dataset filename;
  precipitation ←
    match ds_precipitation ds_rainfall with
    | Some precipitation =>
        valid_time ←
          match ds_valid_time ds_rainfall with
          | Some t => valid_time ← lift (utcfromtimestamp t);
                      mret (Some valid_time)
          | None => mret None
          end;
        start_time ←
          match ds_start_time ds_rainfall with
          | Some t => start_time ← lift (utcfromtimestamp t);
                      mret (Some start_time)
          | None => mret None
          end;
        let time_step : option Z :=
          match start_time with
          | Some start_time =>
              match valid_time with
              | Some valid_time =>
                  Some (timedelta_seconds valid_time start_time / 60)
              | None => None
              end
          | None => None
          end in
        time_step ← lift (local "time_step" time_step);
        if negb (time_step =? 0) then
          factor_rain ← lift (truediv (of_dec 60.0) time_step);
          mret (Some (amap (fun x => fmul x factor_rain) precipitation))
        else mret (Some precipitation)
    | None => mret None
    end;
  _ ← close_file filename;
  mret precipitation.

(** [projection.standard_parallel[i]] *)
Definition parallel (l : list F) (i : nat) : result F :=
  match l !! i with
  | Some x => Ok x
  | None => Raise IndexError
  end.

(** Lines 289-309.  [projdef] is unbound until one of the two inner
    branches assigns it; its value may be [None]. *)
Definition _import_bom_rf3_geodata (filename : string)
  : IO (option string) :=
  ds_rainfall ← Dataset filename;
  projdef ←
    match ds_proj ds_rainfall with
    | Some projection =>
        name ← lift (getattr "grid_mapping_name"
                       (grid_mapping_name projection));
        if String.eqb name "albers_conical_equal_area" then
          let projdef := "+proj=aea " in
          lon_0 ← lift (getattr "longitude_of_central_meridian"
                          (longitude_of_central_meridian projection));
          let projdef := projdef +:+ (" +lon_0=" +:+ py_str lon_0) in
          lat_0 ← lift (getattr "latitude_of_projection_origin"
                          (latitude_of_projection_origin projection));
          let projdef := projdef +:+ (" +lat_0=" +:+ py_str lat_0) in
          standard_parallels ← lift (getattr "standard_parallel"
                                       (standard_parallel projection));
          p0 ← lift (parallel standard_parallels 0);
          let projdef := projdef +:+ (" +lat_1=" +:+ py_str p0) in
          p1 ← lift (parallel standard_parallels 1);
          let projdef := projdef +:+ (" +lat_2=" +:+ py_str p1) in
          mret (Some (Some projdef))
        else mret (Some None)
    | None => mret None
    end;
  _ ← close_file filename;
  lift (local "projdef" projdef).

(** Lines 312-318. *)
Definition _import_bom_rf3_metadata (filename : string) : dict :=
  let metadata : dict := ∅ in
  let metadata := <["institution" := VStr "Bureau of Meteorology"]> metadata in
  let metadata := <["timestep" := VInt 0]> metadata in
  let metadata := <["unit" := VStr "mm/h"]> metadata in
  metadata.

(** Lines 236-259. *)
Definition import_bom_rf3 (filename : string)
  : IO (option (array F) * option string * dict) :=
  if negb (netcdf4_imported rt)
  then raise (PyException "netCDF4 not imported")
  else
    R ← _import_bom_rf3_data filename;
    geodata ← _import_bom_rf3_geodata filename;
    let metadata := _import_bom_rf3_metadata filename in
    mret (R, geodata, metadata).

End Importers.

(** ** The registry of utility methods ([pysteps/utils/interface.py]) *)

(** The callables the registry hands out: the local [donothing] and the
    functions of the modules [conversion], [transformation] and
    [dimension]. *)
Inductive method : Type :=
  | donothing
  | conversion_to_rainrate
  | conversion_to_raindepth
  | conversion_to_reflectivity
  | transformation_boxcox_transform
  | transformation_dB_transform
  | transformation_NQ_transform
  | transformation_sqrt_transform
  | dimension_aggregate_fields_time
  | dimension_clip_domain
  | dimension_square_domain
  | dimension_aggregate_fields_space.

(** Lines 60-61: [donothing] returns copies of its two arguments. *)
Definition donothing_call {A B} (R : A) (metadata : B) : A * B :=
  (R, metadata).

(** [str.lower] on ASCII text. *)
Definition lower_char (c : ascii) : ascii :=
  let n := nat_of_ascii c in
  if ((65 <=? n) && (n <=? 90))%nat then ascii_of_nat (n + 32) else c.

Fixpoint str_lower (s : string) : string :=
  match s with
  | EmptyString => EmptyString
  | String c s' => String (lower_char c) (str_lower s')
  end.

(** Lines 63-84. *)
Definition methods_objects : gmap string method :=
  let methods_objects : gmap string method := ∅ in
  let methods_objects := <["none" := donothing]> methods_objects in
  let methods_objects := <["mm/h" := conversion_to_rainrate]> methods_objects in
  let methods_objects := <["rainrate" := conversion_to_rainrate]> methods_objects in
  let methods_objects := <["mm" := conversion_to_raindepth]> methods_objects in
  let methods_objects := <["raindepth" := conversion_to_raindepth]> methods_objects in
  let methods_objects := <["dbz" := conversion_to_reflectivity]> methods_objects in
  let methods_objects := <["reflectivity" := conversion_to_reflectivity]> methods_objects in
  let methods_objects := <["boxcox" := transformation_boxcox_transform]> methods_objects in
  let methods_objects := <["box-cox" := transformation_boxcox_transform]> methods_objects in
  let methods_objects := <["db" := transformation_dB_transform]> methods_objects in
  let methods_objects := <["decibel" := transformation_dB_transform]> methods_objects in
  let methods_objects := <["log" := transformation_boxcox_transform]> methods_objects in
  let methods_objects := <["nqt" := transformation_NQ_transform]> methods_objects in
  let methods_objects := <["sqrt" := transformation_sqrt_transform]> methods_objects in
  let methods_objects := <["accumulate" := dimension_aggregate_fields_time]> methods_objects in
  let methods_objects := <["clip" := dimension_clip_domain]> methods_objects in
  let methods_objects := <["square" := dimension_square_domain]> methods_objects in
  let methods_objects := <["upscale" := dimension_aggregate_fields_space]> methods_objects in
  methods_objects.

Section GetMethod.

(** [repr] of a string and [str] of the keys of a dictionary. *)
Variable py_repr : string -> string.
Variable py_str_keys : gmap string method -> string.

(** Lines 55-91. *)
Definition get_method (name : option string) : result method :=
  let name := match name with
              | None => "none"
              | Some name => name
              end in
  let name := str_lower name in
  match methods_objects !! name with
  | Some m => Ok m
  | None =>
      Raise (ValueError (("Unknown method " +:+ py_repr name
                          +:+ String "010" EmptyString)
                         +:+ ("Supported methods:"
                              +:+ py_str_keys methods_objects)))
  end.

End GetMethod.

(** ** Exact arithmetic *)

(** The real numbers with a NaN: arithmetic with the rounding of [float64]
    left out.  It is a second instance of [Arith], for worked runs of the
    statements that hold for every arithmetic; nothing about [float64] is
    derived from it. *)
Inductive xreal : Type :=
  | XNaN
  | XR (r : R).

Module Ideal.

Definition lift2 (f : R -> R -> R) (x y : xreal) : xreal :=
  match x, y with
  | XR a, XR b => XR (f a b)
  | _, _ => XNaN
  end.

Definition div (x y : xreal) : xreal :=
  match x, y with
  | XR a, XR b => if Req_dec_T b 0 then XNaN else XR (a / b)
  | _, _ => XNaN
  end.

(** [a ** b] for a positive base, and for the base zero with a positive
    exponent; undefined elsewhere. *)
Definition pow (x y : xreal) : xreal :=
  match x, y with
  | XR a, XR b =>
      if Rlt_dec 0 a then XR (Rpower a b)
      else if Req_dec_T a 0 then (if Rlt_dec 0 b then XR 0 else XNaN)
      else XNaN
  | _, _ => XNaN
  end.

Definition le (x y : xreal) : Prop :=
  match x, y with
  | XR a, XR b => (a <= b)%R
  | _, _ => False
  end.

End Ideal.

#[export] Instance ideal : Arith xreal := {
  of_int z := XR (IZR z);
  of_dec q := XR (Q2R q);
  fsub := Ideal.lift2 Rminus;
  fmul := Ideal.lift2 Rmult;
  fdiv := Ideal.div;
  fnan := XNaN;
  fle := Ideal.le
}.

#[export] Instance ideal_libm : Libm xreal := {
  fpow := Ideal.pow
}.

(** ** Vocabulary of the statements about the PGM header *)

(** A line of the comment block begins with [#]. *)
Definition is_comment (l : string) : bool :=
  match l with
  | String c _ => Ascii.eqb c "#"
  | EmptyString => false
  end.




(** The text an importer reads from [filename]: the file itself, or its
    decompressed content. *)
Definition reads_as (fs : filesystem) (gunzip : string -> result string)
    (filename : string) (gzipped : bool) (text : string) : Prop :=
  exists content, fs !! filename = Some content /\
    if gzipped then gunzip content = Ok text else content = text.

(** ** Vocabulary of the statements about the PGM payload *)

Section PgmSample.
Context {F : Type} {A : Arith F}.

(** What lines 80-83 make of one sample. *)
Definition pgm_sample (missingval s : Z) : F :=
  fdiv (fsub (if s =? missingval then fnan else of_int s) (of_dec 64.0))
    (of_dec 2.0).

End PgmSample.

(** The rescaled value of a sample that is not the sentinel is computed
    without rounding. *)
Definition pgm_exact_at (s : Z) : bool :=
  match Binary64.value (pgm_sample (s + 1) s) with
  | Some q => Qeq_bool q ((s - 64) # 2)
  | None => false
  end.

(** ** Vocabulary of the statements about the AQC table *)

(** The value of [(10.**((i - 71.2)/20.0)/A)**(1.0/b)] at line 197, in
    double precision and with the [pow] of the C library [L]. *)
Definition aqc_root (L : Libm float) (i : Z) : float :=
  fpow
    (fdiv
       (fpow (of_dec 10.0)
          (fdiv (fsub (of_int i) (of_dec 71.2)) (of_dec 20.0)))
       (of_dec 316.0))
    (fdiv (of_dec 1.0) (of_dec 1.5)).

(** Reference values of that expression for [i] from 2 to 250: the doubles
    the GNU C library returns on x86-64. *)
Definition aqc_root_ref : list float :=
  [0x1.be34ad675952cp-14%float; 0x1.e1cd49e41ca6bp-14%float;
   0x1.041e6e1328af9p-13%float; 0x1.18deb13d41c39p-13%float;
   0x1.2f46bdc575d64p-13%float; 0x1.4778626d89d4bp-13%float;
   0x1.619820668711fp-13%float; 0x1.7dcd626517b59p-13%float;
   0x1.9c42b81abef3cp-13%float; 0x1.bd26166da96e9p-13%float;
   0x1.e0a91ccffabcdp-13%float; 0x1.0380b00f9befdp-12%float;
   0x1.18345dbe6394dp-12%float; 0x1.2e8ed3ccc0990p-12%float;
   0x1.46b1cc7c04d17p-12%float; 0x1.60c1b2da14539p-12%float;
   0x1.7ce5d9b45b150p-12%float; 0x1.9b48b6ecf4374p-12%float;
   0x1.bc18238b88ea9p-12%float; 0x1.df85a0ea91235p-12%float;
   0x1.02e351b4ab3fcp-11%float; 0x1.178a7189b6a8fp-11%float;
   0x1.2dd7595baabf4p-11%float; 0x1.45ebaef7d50a3p-11%float;
   0x1.5febc7566110dp-11%float; 0x1.7bfedd6bfb72fp-11%float;
   0x1.9a4f4d5afe21fp-11%float; 0x1.bb0ad45d75654p-11%float;
   0x1.de62d5c86d40bp-11%float; 0x1.024652c854264p-10%float;
   0x1.16e0ec6097d39p-10%float; 0x1.2d204e2e91e82p-10%float;
   0x1.45260997f2db8p-10%float; 0x1.5f165d8c92346p-10%float;
   0x1.7b186d36d34bcp-10%float; 0x1.99567b08ec49ap-10%float;
   0x1.b9fe288028d67p-10%float; 0x1.dd40bafe5da31p-10%float;
   0x1.01a9b310b7585p-9%float; 0x1.1637ce0489e50p-9%float;
   0x1.2c69b201fcb5ep-9%float; 0x1.4460dc1382ebbp-9%float;
   0x1.5e41752dfc7a2p-9%float; 0x1.7a3288bff0bf3p-9%float;
   0x1.985e3f9b0605bp-9%float; 0x1.b8f21f9099684p-9%float;
   0x1.dc1f502171da3p-9%float; 0x1.010d725418a29p-8%float;
   0x1.158f163735929p-8%float; 0x1.2bb384929ab60p-8%float;
   0x1.439c2621d60f9p-8%float; 0x1.5d6d0dec24532p-8%float;
   0x1.794d2fb2956f2p-8%float; 0x1.97669ab5ca4cbp-8%float;
   0x1.b7e6b92bf9550p-8%float; 0x1.dafe94c6fa4f7p-8%float;
   0x1.00719058ded53p-7%float; 0x1.14e6c4ba695f6p-7%float;
   0x1.2afdc59d44485p-7%float; 0x1.42d7e77a692fdp-7%float;
   0x1.5c992778bdc87p-7%float; 0x1.786861ba36622p-7%float;
   0x1.966f8bfdef926p-7%float; 0x1.b6dbf4efb6c16p-7%float;
   0x1.d9de8884881ecp-7%float; 0x1.ffac19cb275c1p-7%float;
   0x1.143ed9501985fp-6%float; 0x1.2a4874defa85ep-6%float;
   0x1.42141fd4e52e5p-6%float; 0x1.5bc5c185ac5e5p-6%float;
   0x1.77841e827be35p-6%float; 0x1.9579131863a69p-6%float;
   0x1.b5d1d2797b989p-6%float; 0x1.d8bf2aefeceeep-6%float;
   0x1.fe75cf81c7873p-6%float; 0x1.139753ba5fe12p-5%float;
   0x1.29939214e7284p-5%float; 0x1.4150cee91ecb3p-5%float;
   0x1.5af2dbc502f72p-5%float; 0x1.76a065b741638p-5%float;
   0x1.94832faa4b936p-5%float; 0x1.b4c851672d67dp-5%float;
   0x1.d7a07b9f3acadp-5%float; 0x1.fd4041633cdfcp-5%float;
   0x1.12f033bb7bd51p-4%float; 0x1.28df1cfc5c71ap-4%float;
   0x1.408df46f168a7p-4%float; 0x1.5a2075e903b73p-4%float;
   0x1.75bd3704955a6p-4%float; 0x1.938de159037bdp-4%float;
   0x1.b3bf7156ed3a8p-4%float; 0x1.d6827a28c3fa9p-4%float;
   0x1.fc0b6efd6b76ep-4%float; 0x1.12497915d238ep-3%float;
   0x1.282b1552d5132p-3%float; 0x1.3fcb901ef8997p-3%float;
   0x1.594e8fa41fe76p-3%float; 0x1.74da9216b9274p-3%float;
   0x1.929927ca1e79ep-3%float; 0x1.b2b731e71775bp-3%float;
   0x1.d56526231adc1p-3%float; 0x1.fad757de7c902p-3%float;
   0x1.11a3238bed3f5p-2%float; 0x1.27777ad5f4155p-2%float;
   0x1.3f09a1b11cb46p-2%float; 0x1.587d28a8f7d95p-2%float;
   0x1.73f8769a20f25p-2%float; 0x1.91a502a3667dfp-2%float;
   0x1.b1af92b643b4fp-2%float; 0x1.d4487f2511bc3p-2%float;
   0x1.f9a3fb94de786p-2%float; 0x1.10fd32e07c60ep-1%float;
   0x1.26c44d4384beap-1%float; 0x1.3e4828de060bep-1%float;
   0x1.57ac40aa5aca4p-1%float; 0x1.7316e43b738e2p-1%float;
   0x1.90b1718adc2d0p-1%float; 0x1.b0a8936344a4cp-1%float;
   0x1.d32c84c5bab10p-1%float; 0x1.f87159af445a8p-1%float;
   0x1.1057a6d65444ap+0%float; 0x1.26118c597a7c9p+0%float;
   0x1.3d87255e632a2p+0%float; 0x1.56dbd75b46c71p+0%float;
   0x1.7235daa78a57dp+0%float; 0x1.8fbe7426b6bfep+0%float;
   0x1.afa2338d27e13p+0%float; 0x1.d211369c6770ep+0%float;
   0x1.f73f71bca6185p+0%float; 0x1.0fb27f306ea99p+1%float;
   0x1.255f37d5f0c99p+1%float; 0x1.3cc696eb0dda0p+1%float;
   0x1.560bec6ee88f0p+1%float; 0x1.7155598b711a8p+1%float;
   0x1.8ecc0a1d63e16p+1%float; 0x1.ae9c72d335cfbp+1%float;
   0x1.d0f69440a92edp+1%float; 0x1.f60e434c401d1p+1%float;
   0x1.0f0dbbb1ea511p+2%float; 0x1.24ad4f772b15ap+2%float;
   0x1.3c067d3d0b0b3p+2%float; 0x1.553c7f989b791p+2%float;
   0x1.7075609465ee4p+2%float; 0x1.8dda3315878ecp+2%float;
   0x1.ad9750d4f17ccp+2%float; 0x1.cfdc9d4a50719p+2%float;
   0x1.f4ddcded93382p+2%float; 0x1.0e695c1e0ae6ep+3%float;
   0x1.23fbd2fb94ae9p+3%float; 0x1.3b46d80d8ab89p+3%float;
   0x1.546d908be955cp+3%float; 0x1.6f95ef6fd91bbp+3%float;
   0x1.8ce8eeb5fbf4ap+3%float; 0x1.ac92cd3218787p+3%float;
   0x1.cec351516cee1p+3%float; 0x1.f3ae1130646fdp+3%float;
   0x1.0dc5603838ecbp+4%float; 0x1.234ac221c0a68p+4%float;
   0x1.3a87a715e7ceep+4%float; 0x1.539f1efc8a542p+4%float;
   0x1.6eb705cb6cfbfp+4%float; 0x1.8bf83ca5d1508p+4%float;
   0x1.ab8ee78aa2b2ap+4%float; 0x1.cdaaafee4d60cp+4%float;
   0x1.f27f0ca4bcda1p+4%float; 0x1.0d21c7c401a1dp+5%float;
   0x1.229a1ca869bd4p+5%float; 0x1.39c8ea0fa8123p+5%float;
   0x1.52d12a9e64e50p+5%float; 0x1.6dd8a354f5db4p+5%float;
   0x1.8b081c8c4dcdfp+5%float; 0x1.aa8b9f7ec2574p+5%float;
   0x1.cc92b8b97f69bp+5%float; 0x1.f150bfdae9720p+5%float;
   0x1.0c7e928516ee2p+6%float; 0x1.21e9e24e7246fp+6%float;
   0x1.390aa0b47c030p+6%float; 0x1.5203b3258da0ap+6%float;
   0x1.6cfac7ba79d9ep+6%float; 0x1.8a188e10ed66fp+6%float;
   0x1.a988f4aee3ab1p+6%float; 0x1.cb7b6b4bcf628p+6%float;
   0x1.f0232a637af1bp+6%float; 0x1.0bdbc03f4f4b4p+7%float;
   0x1.213a12d2e414cp+7%float; 0x1.384ccabe3ec5dp+7%float;
   0x1.5136b8464727dp+7%float; 0x1.6c1d72aa30d01p+7%float;
   0x1.892990db61c29p+7%float; 0x1.a886e6bbace92p+7%float;
   0x1.ca64c73e483adp+7%float; 0x1.eef64bcf45a48p+7%float;
   0x1.0b3950b6a5afap+8%float; 0x1.208aadf4f05c8p+8%float;
   0x1.378f67e6f6084p+8%float; 0x1.506a39b5020a3p+8%float;
   0x1.6b40a3d2842c8p+8%float; 0x1.883b24939216bp+8%float;
   0x1.a7857545fe1edp+8%float; 0x1.c94ecc2a3351fp+8%float;
   0x1.edca23af61421p+8%float; 0x1.0a9743af3976ep+9%float;
   0x1.1fdbb373efa27p+9%float; 0x1.36d277e8d1e7bp+9%float;
   0x1.4f9e37265ca9ap+9%float; 0x1.6a645ae20ed93p+9%float;
   0x1.874d48e19b046p+9%float; 0x1.a6849feef1095p+9%float;
   0x1.c83979a918510p+9%float; 0x1.ec9eb19528c0ap+9%float;
   0x1.09f598ed4e4b5p+10%float; 0x1.1f2d230f619dfp+10%float;
   0x1.3615fa7e2cd78p+10%float; 0x1.4ed2b04f231e8p+10%float;
   0x1.698897879d19ep+10%float; 0x1.865ffd6dce77dp+10%float;
   0x1.a5846657d8f26p+10%float; 0x1.c724cf54bd04ap+10%float;
   0x1.eb73f5123a33fp+10%float; 0x1.095450354c11bp+11%float;
   0x1.1e7efc86ed253p+11%float; 0x1.3559ef618b874p+11%float;
   0x1.4e07a4e44f1c0p+11%float; 0x1.68ad59722c741p+11%float;
   0x1.857341e0b38a4p+11%float; 0x1.a484c822428d5p+11%float;
   0x1.c610ccc725383p+11%float; 0x1.ea49edb8769d0p+11%float;
   0x1.08b3694bbed34p+12%float; 0x1.1dd13f9a60133p+12%float;
   0x1.349e564d9cc94p+12%float; 0x1.4d3d149b07d41p+12%float;
   0x1.67d2a050eb8b1p+12%float; 0x1.848715e306621p+12%float;
   0x1.a385c4eff3d3fp+12%float; 0x1.c4fd719a928f6p+12%float;
   0x1.e9209b1a01c4ap+12%float; 0x1.0812e3f556a5dp+13%float;
   0x1.1d23ec09af330p+13%float; 0x1.33e32efd39786p+13%float;
   0x1.4c72ff28a1de0p+13%float; 0x1.66f86bd33a04dp+13%float;
   0x1.839b791db80d5p+13%float; 0x1.a2875c62ebe6bp+13%float;
   0x1.c3eabd6984604p+13%float; 0x1.e7f7fcc94215bp+13%float;
   0x1.0772bff6e7971p+14%float; 0x1.1c770194f622ep+14%float;
   0x1.3328792b6460dp+14%float].

(** The doubles at most [k] steps above and below [r]. *)
Fixpoint ups (k : nat) (r : float) : list float :=
  match k with
  | O => []
  | S k => let r := PrimFloat.next_up r in r :: ups k r
  end.

Fixpoint downs (k : nat) (r : float) : list float :=
  match k with
  | O => []
  | S k => let r := PrimFloat.next_down r in r :: downs k r
  end.

Definition near (k : nat) (r : float) : list float :=
  downs k r ++ r :: ups k r.

(** The C library is accurate on the arguments of the table: for each index
    from 2 to 250 the double it returns lies within sixteen units in the
    last place of the reference. *)
Definition pow_tolerance : nat := 16.

Definition pow_accurate (L : Libm float) : Prop :=
  forall i, 2 <= i <= 250 ->
    exists r, aqc_root_ref !! Z.to_nat (i - 2) = Some r /\
              In (aqc_root L i) (near pow_tolerance r).

(** The entries of the table such a library can lead to, for each index
    from 2 to 250: the end of line 197 applied to the doubles near the
    reference. *)
Definition aqc_candidates : list (list float) :=
  (fun r =>
     (fun q => fdiv (fmul q (of_int 60)) (of_int 5)) <$> near pow_tolerance r)
    <$> aqc_root_ref.

(** Every double of a list is below every double of each later list, in
    the order of [float64]. *)
Fixpoint increasing (cs : list (list float)) : bool :=
  match cs with
  | [] => true
  | c :: cs' =>
      forallb
        (fun c' =>
           forallb
             (fun a =>
                forallb (fun b => PrimFloat.ltb a b && PrimFloat.leb a b) c')
             c)
        cs'
      && increasing cs'
  end.

(** Two finite doubles with the same sign, mantissa and exponent. *)
Definition same_double (x y : float) : bool :=
  match Prim2SF x, Prim2SF y with
  | S754_finite s m e, S754_finite s' m' e' =>
      Bool.eqb s s' && Pos.eqb m m' && Z.eqb e e'
  | _, _ => false
  end.

(** Every double of every list is a positive number. *)
Definition positive (cs : list (list float)) : bool :=
  forallb (forallb (fun a => PrimFloat.ltb 0 a && PrimFloat.leb a a)) cs.

(** The dictionary after a run of comment lines. *)
Definition comment_entries {F} (md : gmap string (pyval F))
    (block : list string) : gmap string (pyval F) :=
  fold_left comment_entry block md.

(** ** Sample inputs *)

(** A decoder that finds the dataset [ds] in any file. *)
Definition nc_const {F} (ds : dataset F) : string -> result (dataset F) :=
  fun _ => Ok ds.

(** A disk holding the single file [rf3.nc]. *)
Definition bom_fs : filesystem := {["rf3.nc" := "CDF"]}.

(** A 5 mm accumulation between [start_time = 0] and [valid_time = 300]. *)
Definition bom_five_minutes : dataset float := {|
  ds_precipitation := Some [[5%float]];
  ds_valid_time := Some 300;
  ds_start_time := Some 0;
  ds_proj := None
|}.

(** The same field with both instants on the same second. *)
Definition bom_same_instant : dataset float := {|
  ds_precipitation := Some [[5%float]];
  ds_valid_time := Some 300;
  ds_start_time := Some 300;
  ds_proj := None
|}.

(** The same field without [valid_time] and [start_time]. *)
Definition bom_no_instants : dataset float := {|
  ds_precipitation := Some [[5%float]];
  ds_valid_time := None;
  ds_start_time := None;
  ds_proj := None
|}.

(** A projection variable of another family. *)
Definition bom_mercator : dataset float := {|
  ds_precipitation := None;
  ds_valid_time := None;
  ds_start_time := None;
  ds_proj := Some {|
    grid_mapping_name := Some "mercator";
    longitude_of_central_meridian := None;
    latitude_of_projection_origin := None;
    standard_parallel := None
  |}
|}.

(** The line terminator. *)
Definition LF : string := String "010" EmptyString.

(** A PGM file whose width and height stand on lines of their own: 7
    columns, 9 rows, maximal sample 255. *)
Definition pgm_text : string :=
  "P5" +:+ LF +:+ "# type stereographic" +:+ LF +:+ "7" +:+ LF +:+ "9" +:+ LF
  +:+ "255" +:+ LF.

Definition pgm_fs : filesystem := {["composite.pgm" := pgm_text]}.

(** Library calls that fail, for the runs that never reach them. *)
Definition no_gunzip : string -> result string :=
  fun _ => Raise (LibraryError "not a gzip file").
Definition no_raster : string -> result (array Z) :=
  fun _ => Raise (LibraryError "not an image").
Definition no_dataset {F} : string -> result (dataset F) :=
  fun _ => Raise (LibraryError "not a netCDF file").
Definition no_proj {F} : string -> result (F -> F -> F * F) :=
  fun _ => Raise (LibraryError "invalid projection").
Definition no_float {F} : string -> result F :=
  fun _ => Raise (ValueError "could not convert string to float").
Definition no_str {F} : F -> string :=
  fun _ => "nan".

(** Text mode with an encoding that accepts every byte: the first line of
    the file. *)
Definition first_line (content : string) : result string :=
  match lines content with
  | l :: _ => Ok l
  | [] => Ok EmptyString
  end.

(** An interpreter without any of the three optional packages. *)
Definition bare_runtime : runtime := {|
  netcdf4_imported := false;
  pil_imported := false;
  pyproj_imported := false;
  text_readline := first_line
|}.

(** A stand-in for gzip: the compressed form of a text is the text behind
    the two magic bytes of the format. *)
Definition gz (text : string) : string :=
  String "031" (String "139" text).

Definition gunzip_stored (content : string) : result string :=
  match content with
  | String "031" (String "139" text) => Ok text
  | _ => Raise (LibraryError "not a gzip file")
  end.


(** A PGM file cut inside its comment block, plain and compressed. *)
Definition pgm_truncated_text : string :=
  "P5" +:+ LF +:+ "# type stereographic" +:+ LF.

Definition pgm_truncated_fs : filesystem :=
  {["truncated.pgm" := pgm_truncated_text;
    "truncated.pgm.gz" := gz pgm_truncated_text]}.

(** A complete FMI composite of two rows and two columns, compressed, and
    library calls that decode it: the samples, an identity projection, a
    float parser that reads every number as 1000. *)
Definition fmi_text : string :=
  "P5" +:+ LF +:+ "# type stereographic" +:+ LF
  +:+ "# centrallongitude 25" +:+ LF +:+ "# centrallatitude 90" +:+ LF
  +:+ "# truelatitude 60" +:+ LF +:+ "# bottomleft 18.6 57.93" +:+ LF
  +:+ "# topright 34.9 69.0" +:+ LF +:+ "# metersperpixel_x 1000" +:+ LF
  +:+ "# metersperpixel_y 1000" +:+ LF +:+ "2 2" +:+ LF +:+ "255" +:+ LF.

Definition fmi_fs : filesystem := {["fmi.pgm.gz" := gz fmi_text]}.

Definition fmi_raster : string -> result (array Z) :=
  fun _ => Ok [[64; 66]; [255; 0]].
Definition fmi_proj : string -> result (float -> float -> float * float) :=
  fun _ => Ok (fun lon lat => (lon, lat)).
Definition fmi_float : string -> result float :=
  fun _ => Ok 1000%float.

(** An interpreter with the three optional packages. *)
Definition full_runtime : runtime := {|
  netcdf4_imported := true;
  pil_imported := true;
  pyproj_imported := true;
  text_readline := first_line
|}.

(** An accumulation over one day and five minutes. *)
Definition bom_day_and_five_minutes : dataset float := {|
  ds_precipitation := Some [[5%float]];
  ds_valid_time := Some 86700;
  ds_start_time := Some 0;
  ds_proj := None
|}.

(** ** Vocabulary of the statements about whole imports *)



(** The lengths of the rows of an array. *)
Definition shape {A} (R : array A) : list nat := length <$> R.

(** The keys every geodata dictionary carries (lines 13-24). *)
Definition geodata_keys : gset string :=
  {[ "projection"; "x1"; "y1"; "x2"; "y2"; "xpixelsize"; "ypixelsize";
     "yorigin" ]}.

(** An instant a [datetime] can hold. *)
Definition datetime_range (t : Z) : Prop :=
  datetime_min <= t <= datetime_max.


(** The rescaled value of the sample [s] lies between -32 and 95.5. *)
Definition pgm_range_at (s : Z) : bool :=
  let v := pgm_sample (F:=float) (s + 1) s in
  PrimFloat.leb (-32)%float v && PrimFloat.leb v 95.5%float.

(** The names the registry knows, in the order of lines 64-84. *)
Definition supported_names : list string :=
  ["none"; "mm/h"; "rainrate"; "mm"; "raindepth"; "dbz"; "reflectivity";
   "boxcox"; "box-cox"; "db"; "decibel"; "log"; "nqt"; "sqrt"; "accumulate";
   "clip"; "square"; "upscale"].

(** ** Further sample inputs *)

(** The dictionaries of the FMI composite: its metadata and, with the
    identity projection and every number read as 1000, its geodata. *)
Definition fmi_metadata : gmap string (pyval float) :=
  pgm_constants
    (<["missingval" := VInt 255]>
       (comment_entries ∅
          ["# type stereographic" +:+ LF; "# centrallongitude 25" +:+ LF;
           "# centrallatitude 90" +:+ LF; "# truelatitude 60" +:+ LF;
           "# bottomleft 18.6 57.93" +:+ LF; "# topright 34.9 69.0" +:+ LF;
           "# metersperpixel_x 1000" +:+ LF; "# metersperpixel_y 1000" +:+ LF])).

Definition fmi_geodata : gmap string (pyval float) :=
  <["yorigin" := VStr "upper"]>
    (<["ypixelsize" := VFloat 1000%float]>
       (<["xpixelsize" := VFloat 1000%float]>
          (<["y2" := VFloat 1000%float]>
             (<["x2" := VFloat 1000%float]>
                (<["y1" := VFloat 1000%float]>
                   (<["x1" := VFloat 1000%float]>
                      (<["projection" :=
                           VStr "+proj=stere  +lon_0=25E +lat_0=90N +lat_ts=60 +a=6371288 +x_0=380886.310 +y_0=3395677.920 +no_defs"]>
                         ∅))))))).




(** An AQC file and the indices PIL finds in it. *)
Definition aqc_fs : filesystem := {["aqc.gif" := "GIF89a"]}.
Definition aqc_raster : string -> result (array Z) :=
  fun _ => Ok [[0; 100]; [255; 251]].

(** Datasets with a projection variable: a complete Albers one, one with a
    single standard parallel, one without a family name. *)
Definition bom_albers : dataset float := {|
  ds_precipitation := None;
  ds_valid_time := None;
  ds_start_time := None;
  ds_proj := Some {|
    grid_mapping_name := Some "albers_conical_equal_area";
    longitude_of_central_meridian := Some 132%float;
    latitude_of_projection_origin := Some 0%float;
    standard_parallel := Some [(-18)%float; (-36)%float]
  |}
|}.

Definition bom_one_parallel : dataset float := {|
  ds_precipitation := None;
  ds_valid_time := None;
  ds_start_time := None;
  ds_proj := Some {|
    grid_mapping_name := Some "albers_conical_equal_area";
    longitude_of_central_meridian := Some 132%float;
    latitude_of_projection_origin := Some 0%float;
    standard_parallel := Some [(-18)%float]
  |}
|}.

Definition bom_unnamed : dataset float := {|
  ds_precipitation := None;
  ds_valid_time := None;
  ds_start_time := None;
  ds_proj := Some {|
    grid_mapping_name := None;
    longitude_of_central_meridian := None;
    latitude_of_projection_origin := None;
    standard_parallel := None
  |}
|}.

(** Stand-ins for [repr] and for [str] of the keys. *)
Definition quote_repr : string -> string :=
  fun s => "'" +:+ s +:+ "'".
Definition keys_str : gmap string method -> string :=
  fun _ => "dict_keys([...])".

(** A C library for the AQC table: the values glibc returns for
    [10.**((i - 71.2)/20.0)], [i] from 2 to 250, and a [pow] that looks its
    two kinds of call up, these and those of [aqc_root_ref]. *)
Definition pow10_ref : list float :=
  [0x1.6b9476ed9da42p-12%float; 0x1.97f182ca6a8adp-12%float;
   0x1.c9b853941a21cp-12%float; 0x1.00c9001778d90p-11%float;
   0x1.201e20a5f506dp-11%float; 0x1.4345faf166f0ep-11%float;
   0x1.6ab7fb27d8f1ep-11%float; 0x1.96fa1fd61632ap-11%float;
   0x1.c8a2c11435bcap-11%float; 0x1.002d479e254aap-10%float;
   0x1.1f6f67f90c94ap-10%float; 0x1.4281f08b310cbp-10%float;
   0x1.69dc0516eb693p-10%float; 0x1.960352e725dedp-10%float;
   0x1.c78dd6e7dff4ap-10%float; 0x1.ff23db27292d5p-10%float;
   0x1.1ec11940ab559p-9%float; 0x1.41be5d0733c42p-9%float;
   0x1.69009469bfdc7p-9%float; 0x1.950d1ba29f9e4p-9%float;
   0x1.c67994a9050d2p-9%float; 0x1.fdede37d052d8p-9%float;
   0x1.1e13343c90552p-8%float; 0x1.40fb401d570f4p-8%float;
   0x1.6825a8cf72489p-8%float; 0x1.941779adc0ad1p-8%float;
   0x1.c565f9f1cf2e6p-8%float; 0x1.fcb8a7cb9bbf4p-8%float;
   0x1.1d65b8aca195ep-7%float; 0x1.40389985ae9d4p-7%float;
   0x1.674b41f74fb99p-7%float; 0x1.93226cadfd4fdp-7%float;
   0x1.c453065ca643cp-7%float; 0x1.fb8427a0ef568p-7%float;
   0x1.1cb8a650ebf8ep-6%float; 0x1.3f7668f879bc2p-6%float;
   0x1.66715f90d62afp-6%float; 0x1.922df44900b56p-6%float;
   0x1.c340b9842fd39p-6%float; 0x1.fa50628b4785dp-6%float;
   0x1.1c0bfce9a3281p-5%float; 0x1.3eb4ae2e233c7p-5%float;
   0x1.6598014bb46a9p-5%float; 0x1.913a1024acd32p-5%float;
   0x1.c22f13034edabp-5%float; 0x1.f91d581930d81p-5%float;
   0x1.1b5fbc37217d0p-4%float; 0x1.3df368df4157cp-4%float;
   0x1.64bf26d7c9fb6p-4%float; 0x1.9046bfe71a449p-4%float;
   0x1.c11e127523a7fp-4%float; 0x1.f7eb07d97ca3cp-4%float;
   0x1.1ab3e3f9e7ea6p-3%float; 0x1.3d3298c495960p-3%float;
   0x1.63e6cfe526f73p-3%float; 0x1.8f540336982b2p-3%float;
   0x1.c00db7750bb5ap-3%float; 0x1.f6b9715b40e2cp-3%float;
   0x1.1a0873f29de42p-2%float; 0x1.3c723d970cb3bp-2%float;
   0x1.630efc240bf22p-2%float; 0x1.8e61d9b9ac0b9p-2%float;
   0x1.befe019ea1853p-2%float; 0x1.f588942dd807cp-2%float;
   0x1.195d6be21148cp-1%float; 0x1.3bb2570fbe871p-1%float;
   0x1.6237ab44e9dc4p-1%float; 0x1.8d70431711adap-1%float;
   0x1.bdeef08dbc7a2p-1%float; 0x1.f4586fe0e0d5dp-1%float;
   0x1.18b2cb8936490p+0%float; 0x1.3af2e4e7ede66p+0%float;
   0x1.6160dcf861e4ep+0%float; 0x1.8c7f3ef5bafb8p+0%float;
   0x1.bce083de70b50p+0%float; 0x1.f32904043e360p+0%float;
   0x1.180892a927518p+1%float; 0x1.3a33e6d9088dbp+1%float;
   0x1.608a90ef455d3p+1%float; 0x1.8b8eccfccfe0ap+1%float;
   0x1.bbd2bb2d0eee9p+1%float; 0x1.f1fa5028170e7p+1%float;
   0x1.175ec10324f34p+2%float; 0x1.39755c9ca704dp+2%float;
   0x1.5fb4c6da959afp+2%float; 0x1.8a9eecd3ae28cp+2%float;
   0x1.bac5961624535p+2%float; 0x1.f0cc53dcd6191p+2%float;
   0x1.16b5565895cc5p+3%float; 0x1.38b745ec8c85bp+3%float;
   0x1.5edf7e6b83db3p+3%float; 0x1.89af9e21e95ffp+3%float;
   0x1.b9b914367a5e3p+3%float; 0x1.ef9f0eb329ba8p+3%float;
   0x1.160c526b06711p+4%float; 0x1.37f9a282a6e1bp+4%float;
   0x1.5e0ab7537125fp+4%float; 0x1.88c0e08f4ab12p+4%float;
   0x1.b8ad352b16b4ap+4%float; 0x1.ee72803c03d8ap+4%float;
   0x1.1563b4fc29552p+5%float; 0x1.373c72190e690p+5%float;
   0x1.5d367143ee301p+5%float; 0x1.87d2b3c3d0c62p+5%float;
   0x1.b7a1f8913b019p+5%float; 0x1.ed46a80899b30p+5%float;
   0x1.14bb7dcdd6b41p+6%float; 0x1.367fb46a05cfbp+6%float;
   0x1.5c62abeebb3f8p+6%float; 0x1.86e51767afa6fp+6%float;
   0x1.b6975e0664d24p+6%float; 0x1.ec1b85aa63b7fp+6%float;
   0x1.1413aca20c7abp+7%float; 0x1.35c3692ffa149p+7%float;
   0x1.5b8f6705c80d5p+7%float; 0x1.85f80b23509a6p+7%float;
   0x1.b58d65284d6f6p+7%float; 0x1.eaf118b31d5d2p+7%float;
   0x1.136c413aee30ep+8%float; 0x1.3507902582676p+8%float;
   0x1.5abca23b33aa9p+8%float; 0x1.850b8e9f52034p+8%float;
   0x1.b4840d94e9bbep+8%float; 0x1.e9c760b4c4f7bp+8%float;
   0x1.12c53b5ac4e0fp+9%float; 0x1.344c290560100p+9%float;
   0x1.59ea5d414c611p+9%float; 0x1.841fa18487436p+9%float;
   0x1.b37b56ea6a0f6p+9%float; 0x1.e89e5d419b90bp+9%float;
   0x1.121e9ac3ff037p+10%float; 0x1.3391338a7e52fp+10%float;
   0x1.591897ca8f996p+10%float; 0x1.8334437bf899bp+10%float;
   0x1.b27340c73a10ap+10%float; 0x1.e7760dec24c0fp+10%float;
   0x1.11785f393065ap+11%float; 0x1.32d6af6ff25a3p+11%float;
   0x1.58475189a9bd2p+11%float; 0x1.8249742ee3014p+11%float;
   0x1.b16bcaca00954p+11%float; 0x1.e64e724726841p+11%float;
   0x1.10d2887d12157p+12%float; 0x1.321c9c70fb1adp+12%float;
   0x1.57768a3176193p+12%float; 0x1.815f3346b8141p+12%float;
   0x1.b064f4919f795p+12%float; 0x1.e52789e5a9143p+12%float;
   0x1.102d16528249ap+13%float; 0x1.3162fa49013a7p+13%float;
   0x1.56a64174fec44p+13%float; 0x1.8075806d1de7bp+13%float;
   0x1.af5ebdbd337fbp+13%float; 0x1.e401545af6bf9p+13%float;
   0x1.0f88087c844abp+14%float; 0x1.30a9c8b396f8ap+14%float;
   0x1.55d677077c7f0p+14%float; 0x1.7f8c5b4beef0cp+14%float;
   0x1.ae5925ec142bep+14%float; 0x1.e2dbd13a9bc22p+14%float;
   0x1.0ee35ebe405d4p+15%float; 0x1.2ff1076c78129p+15%float;
   0x1.55072a9c569acp+15%float; 0x1.7ea3c38d39e11p+15%float;
   0x1.ad542cbdd3a00p+15%float; 0x1.e1b7001866191p+15%float;
   0x1.0e3f18db03abdp+16%float; 0x1.2f38b62f89acap+16%float;
   0x1.54385be722dbap+16%float; 0x1.7dbbb8db41898p+16%float;
   0x1.ac4fd1d23e755p+16%float; 0x1.e092e0886561ap+16%float;
   0x1.0d9b3696402fdp+17%float; 0x1.2e80d4b8da37cp+17%float;
   0x1.536a0a9ba55d6p+17%float; 0x1.7cd43ae07cb6cp+17%float;
   0x1.ab4c14c95b9ecp+17%float; 0x1.df6f721eeaacfp+17%float;
   0x1.0cf7b7b38c9b7p+18%float; 0x1.2dc962c4a1595p+18%float;
   0x1.529c366dd0749p+18%float; 0x1.7bed494796173p+18%float;
   0x1.aa48f5436c417p+18%float; 0x1.de4cb47088596p+18%float;
   0x1.0c549bf6a4440p+19%float; 0x1.2d12600f3fcfap+19%float;
   0x1.51cedf11c496dp+19%float; 0x1.7b06e3bb6c17dp+19%float;
   0x1.a94672e0eb928p+19%float; 0x1.dd2aa71211ebep+19%float;
   0x1.0bb1e32367095p+20%float; 0x1.2c5bcc553f5d0p+20%float;
   0x1.5102043bd03bcp+20%float; 0x1.7a2109e710c5bp+20%float;
   0x1.a8448d428eb4cp+20%float; 0x1.dc0949989be47p+20%float;
   0x1.0b0f8cfdd9434p+21%float; 0x1.2ba5a75352ac2p+21%float;
   0x1.5035a5a06fc31p+21%float; 0x1.793bbb75c9afap+21%float;
   0x1.a74344094492bp+21%float; 0x1.dae89b997b9e1p+21%float;
   0x1.0a6d994a23a98p+22%float; 0x1.2aeff0c655388p+22%float;
   0x1.4f69c2f44d550p+22%float; 0x1.7856f8130fc47p+22%float;
   0x1.a64296d635bd7p+22%float; 0x1.d9c89caa471edp+22%float;
   0x1.09cc07cc933c3p+23%float; 0x1.2a3aa86b4b337p+23%float;
   0x1.4e9e5bec40cc7p+23%float; 0x1.7772bf6a8f352p+23%float;
   0x1.a542854ac44bbp+23%float; 0x1.d8a94c60d4f83p+23%float;
   0x1.092ad8499930fp+24%float; 0x1.2985cdff616f7p+24%float;
   0x1.4dd3703d4f94dp+24%float; 0x1.768f11282757fp+24%float;
   0x1.a4430f088bb3dp+24%float; 0x1.d78aaa533c1b9p+24%float;
   0x1.088a0a85cadbbp+25%float; 0x1.28d1613fed42cp+25%float;
   0x1.4d08ff9cac93ep+25%float; 0x1.75abecf7ea86ap+25%float;
   0x1.a34433b160aa4p+25%float; 0x1.d66cb617d3b58p+25%float;
   0x1.07e99e45e1966p+26%float; 0x1.281d61ea6c734p+26%float;
   0x1.4c3f09bfb80b3p+26%float; 0x1.74c952861e004p+26%float;
   0x1.a245f2e750ff8p+26%float; 0x1.d54f6f4533015p+26%float;
   0x1.0749934ebaaf5p+27%float; 0x1.2769cfbc851bcp+27%float;
   0x1.4b758e5bff7d3p+27%float; 0x1.73e7417f39cb5p+27%float;
   0x1.a1484c4ca3791p+27%float; 0x1.d432d572312dfp+27%float;
   0x1.06a9e96557510p+28%float; 0x1.26b6aa7405914p+28%float;
   0x1.4aac8d273d929p+28%float; 0x1.7305b98fe892ap+28%float;
   0x1.a04b3f83d7b8ep+28%float; 0x1.d316e835e5296p+28%float;
   0x1.060aa04edc6a6p+29%float; 0x1.2603f1cee4517p+29%float;
   0x1.49e405d759fb4p+29%float; 0x1.7224ba6507901p+29%float;
   0x1.9f4ecc2fa60efp+29%float].

Definition lookup_float (x : float) (table : list (float * float)) : float :=
  match List.find (fun kv => PrimFloat.eqb (fst kv) x) table with
  | Some kv => snd kv
  | None => PrimFloat.nan
  end.

Definition tabulated_pow (x y : float) : float :=
  if PrimFloat.eqb x 10 then
    lookup_float y
      (zip ((fun i => fdiv (fsub (of_int i) (of_dec 71.2)) (of_dec 20.0))
              <$> seqZ 2 249)
           pow10_ref)
  else
    lookup_float x
      (zip ((fun p => fdiv p (of_dec 316.0)) <$> pow10_ref) aqc_root_ref).

Definition tabulated_libm : Libm float := {| fpow := tabulated_pow |}.

(** Two instants outside the years 1 to 9999, on the same second. *)
Definition bom_year_10000 : dataset float := {|
  ds_precipitation := Some [[5%float]];
  ds_valid_time := Some 253402300800;
  ds_start_time := Some 253402300800;
  ds_proj := None
|}.

(** A dataset with the field, both instants and a complete Albers
    variable. *)
Definition bom_complete : dataset float := {|
  ds_precipitation := Some [[5%float]];
  ds_valid_time := Some 300;
  ds_start_time := Some 0;
  ds_proj := ds_proj bom_albers
|}.

(** * Properties *)

(** ** The dependency guards *)

(** C4: each importer, called while the package it depends on is not
    loaded (pyproj for PGM, PIL for AQC, netCDF4 for BoM), raises
    [Exception("... not imported")] and leaves the trace of file accesses
    as it found it. *)
Theorem missing_dependency_before_file_access {F : Type} {A : Arith F}
    {L : Libm F} (rt : runtime) (fs : filesystem)
    (gunzip : string -> result string)
    (imread_decode pil_decode : string -> result (array Z))
    (nc_decode : string -> result (dataset F))
    (pyproj_Proj : string -> result (F -> F -> F * F))
    (py_float : string -> result F) (py_str : F -> string)
    (filename : string) (gzipped : bool) (t : trace) :
  (pyproj_imported rt = false ->
   import_pgm rt fs gunzip imread_decode pyproj_Proj py_float filename gzipped t
   = (Raise (PyException "pyproj not imported"), t))
  /\ (pil_imported rt = false ->
      import_aqc rt fs pil_decode filename t
      = (Raise (PyException "PIL not imported"), t))
  /\ (netcdf4_imported rt = false ->
      import_bom_rf3 rt fs nc_decode py_str filename t
      = (Raise (PyException "netCDF4 not imported"), t)).
Proof.
  repeat split; intros Hrt.
  - unfold import_pgm. by rewrite Hrt.
  - unfold import_aqc. by rewrite Hrt.
  - unfold import_bom_rf3. by rewrite Hrt.
Qed.

Lemma missing_dependency_before_file_access_witness :
  import_pgm (F:=xreal) bare_runtime pgm_fs no_gunzip no_raster no_proj
    no_float "composite.pgm" false []
  = (Raise (PyException "pyproj not imported"), [])
  /\ import_aqc (F:=xreal) bare_runtime pgm_fs no_raster "composite.pgm" []
     = (Raise (PyException "PIL not imported"), [])
  /\ import_bom_rf3 (F:=xreal) bare_runtime pgm_fs no_dataset no_str
       "composite.pgm" []
     = (Raise (PyException "netCDF4 not imported"), []).
Proof.
  destruct (missing_dependency_before_file_access (F:=xreal)
              bare_runtime pgm_fs no_gunzip no_raster no_raster no_dataset
              no_proj no_float no_str "composite.pgm" false [])
    as (Hpgm & Haqc & Hbom).
  split; [|split].
  - apply Hpgm. reflexivity.
  - apply Haqc. reflexivity.
  - apply Hbom. reflexivity.
Defined.

(** ** Bytes and text *)


Lemma bytes_decode_utf8 (b : string) :
  utf8 b = true -> bytes_decode b = Ok b.
Proof. unfold bytes_decode. by intros ->. Qed.

Lemma bytes_decode_invalid (b : string) :
  utf8 b = false -> bytes_decode b = Raise UnicodeDecodeError.
Proof. unfold bytes_decode. by intros ->. Qed.


(** The strict decoder on samples: a no-break space, a stray byte, a
    sequence cut short, an accented letter, a surrogate, a code point above
    U+10FFFF, two overlong forms, the last code point, raster bytes. *)
Lemma utf8_examples :
  utf8 (String "194" (String "160" "#")) = true
  /\ utf8 (String "255" "") = false
  /\ utf8 (String "226" (String "130" "")) = false
  /\ utf8 ("caf" +:+ String "195" (String "169" "")) = true
  /\ utf8 (String "237" (String "160" (String "128" ""))) = false
  /\ utf8 (String "244" (String "144" (String "128" (String "128" "")))) = false
  /\ utf8 (String "192" (String "128" "")) = false
  /\ utf8 (String "224" (String "128" (String "128" ""))) = false
  /\ utf8 (String "244" (String "143" (String "191" (String "191" "")))) = true
  /\ utf8 ("@B" +:+ String "255" (String "000" "")) = false.
Proof. repeat split. Qed.

(** ** PGM: header extraction *)

Section PgmHeaderFacts.
Context {F : Type}.



(** A stream that ends inside the comment block: the empty line read at
    the end has no first character, unless a line that is not UTF-8 comes
    first. *)
Lemma read_comments_unterminated md (l : string) (block : list string) :
  is_comment l = true -> Forall (fun l => is_comment l = true) block ->
  exists e, read_comments (F:=F) md l block = Raise e /\
    (e = IndexError \/ e = UnicodeDecodeError) /\
    (Forall (fun l => utf8 l = true) block -> e = IndexError).
Proof.
  intros Hl Hblock. revert md l Hl.
  induction Hblock as [|l' block Hl' _ IH]; intros md l Hl.
  - destruct l as [|c l]; [done|]. simpl in Hl.
    exists IndexError. cbn [read_comments Py.head mbind result_bind].
    rewrite Hl. split; [done|]. split; [by left|done].
  - destruct l as [|c l]; [done|]. simpl in Hl.
    cbn [read_comments Py.head mbind result_bind]. rewrite Hl.
    destruct (utf8 l') eqn:Hu.
    + rewrite (bytes_decode_utf8 _ Hu). cbn [mbind result_bind].
      destruct (IH (comment_entry md (String c l)) l' Hl')
        as (e & He & Hcases & Hutf).
      exists e. split; [done|]. split; [done|].
      intros [_ Hus]%Forall_cons. by apply Hutf.
    + rewrite (bytes_decode_invalid _ Hu).
      exists UnicodeDecodeError. split; [done|]. split; [by right|].
      intros [Hu' _]%Forall_cons. congruence.
Qed.



Lemma pgm_header_truncated (pre block : list string) :
  Forall (fun l => is_comment l = false) pre ->
  Forall (fun l => is_comment l = true) block ->
  exists e, pgm_header (F:=F) (pre ++ block) = Raise e /\
    (e = IndexError \/ e = UnicodeDecodeError) /\
    (Forall (fun l => utf8 l = true) (pre ++ block) -> e = IndexError).
Proof.
  intros Hpre Hblock. unfold pgm_header.
  induction Hpre as [|l pre Hl _ IH].
  - destruct Hblock as [|b block Hb Hblock].
    + exists IndexError. split; [done|]. split; [by left|done].
    + cbn [app seek_comment]. destruct (utf8 b) eqn:Hu.
      * rewrite (bytes_decode_utf8 _ Hu).
        destruct b as [|c b]; [done|]. simpl in Hb.
        cbn [Py.head mbind result_bind]. rewrite Hb.
        change (negb true) with false. cbv iota. cbn [mbind result_bind].
        destruct (read_comments_unterminated ∅ (String c b) block Hb Hblock)
          as (e & He & Hcases & Hutf).
        rewrite He. exists e. split; [done|]. split; [done|].
        intros [_ Hus]%Forall_cons. by apply Hutf.
      * rewrite (bytes_decode_invalid _ Hu).
        exists UnicodeDecodeError. split; [done|]. split; [by right|].
        intros [Hu' _]%Forall_cons. congruence.
  - cbn [app seek_comment]. destruct (utf8 l) eqn:Hu.
    + rewrite (bytes_decode_utf8 _ Hu). destruct l as [|c l].
      * exists IndexError. split; [done|]. split; [by left|done].
      * simpl in Hl. cbn [Py.head mbind result_bind]. rewrite Hl.
        change (negb false) with true. cbv iota.
        destruct IH as (e & He & Hcases & Hutf).
        exists e. split; [done|]. split; [done|].
        intros [_ Hus]%Forall_cons. by apply Hutf.
    + rewrite (bytes_decode_invalid _ Hu).
      exists UnicodeDecodeError. split; [done|]. split; [by right|].
      intros [Hu' _]%Forall_cons. congruence.
Qed.


Variable rt : runtime.
Variable fs : filesystem.
Variable gunzip : string -> result string.

(** On a gzip stream the importer opens the file, extracts the header from
    the lines of the decompressed text, and closes the file when the
    extraction succeeded. *)
Lemma import_pgm_metadata_gz filename text t :
  reads_as fs gunzip filename true text ->
  _import_pgm_metadata (F:=F) rt fs gunzip filename true t
  = match pgm_header (lines text) with
    | Ok md => (Ok (pgm_constants md), t ++ [EvOpen filename; EvClose filename])
    | Raise e => (Raise e, t ++ [EvOpen filename])
    end.
Proof.
  intros (content & Hfs & Hread).
  unfold _import_pgm_metadata, gzip_open, open_file.
  unfold mbind, IO_bind, mret, IO_ret, close_file, emit, lift.
  simpl. rewrite Hfs. simpl. rewrite Hread.
  destruct (pgm_header (lines text)); simpl; [|done].
  by rewrite <- !app_assoc.
Qed.

(** On a file opened as text the importer raises at line 134, where it
    reads the first line or calls [.decode()] on it, and leaves the file
    open. *)
Lemma import_pgm_metadata_plain filename content t :
  fs !! filename = Some content ->
  _import_pgm_metadata (F:=F) rt fs gunzip filename false t
  = (Raise (match text_readline rt content with
            | Ok _ => AttributeError "decode"
            | Raise e => e
            end),
     t ++ [EvOpen filename]).
Proof.
  intros Hfs. unfold _import_pgm_metadata, open_file.
  unfold mbind, IO_bind, mret, IO_ret, emit, lift, str_decode.
  simpl. rewrite Hfs. simpl. by destruct (text_readline rt content).
Qed.

(** C6: in the PGM importer a stream that ends before any comment line, or
    inside the comment block, makes the header extraction raise, with the
    file left open; it never hangs and never returns a dictionary.  On a
    gzip stream the error is the [IndexError] of [l[0]] on the empty line
    read at the end of the stream, or the [UnicodeDecodeError] of a line
    that is not UTF-8 met before the end; on a file opened as text it is
    the [AttributeError] of the first [.decode()], when the first line
    could be read. *)
Theorem pgm_header_never_terminated filename gzipped text t
    (pre block : list string) :
  reads_as fs gunzip filename gzipped text ->
  lines text = pre ++ block ->
  Forall (fun l => is_comment l = false) pre ->
  Forall (fun l => is_comment l = true) block ->
  exists e,
    _import_pgm_metadata (F:=F) rt fs gunzip filename gzipped t
    = (Raise e, t ++ [EvOpen filename]) /\
    (gzipped = true -> e = IndexError \/ e = UnicodeDecodeError) /\
    (gzipped = true -> Forall (fun l => utf8 l = true) (pre ++ block) ->
     e = IndexError) /\
    (gzipped = false -> forall l, text_readline rt text = Ok l ->
     e = AttributeError "decode").
Proof.
  intros Hread Hlines Hpre Hblock. destruct gzipped.
  - rewrite (import_pgm_metadata_gz _ _ _ Hread), Hlines.
    destruct (pgm_header_truncated pre block Hpre Hblock)
      as (e & -> & Hcases & Hutf).
    exists e. split; [done|]. split; [done|]. split; [done|]. done.
  - destruct Hread as (content & Hfs & ->).
    rewrite (import_pgm_metadata_plain _ _ _ Hfs).
    eexists. split; [done|]. split; [done|]. split; [done|].
    intros _ l Hl. by rewrite Hl.
Qed.


End PgmHeaderFacts.

Lemma pgm_header_never_terminated_witness :
  exists e,
    _import_pgm_metadata (F:=float) full_runtime pgm_truncated_fs gunzip_stored
      "truncated.pgm.gz" true []
    = (Raise e, [] ++ [EvOpen "truncated.pgm.gz"]) /\
    (true = true -> e = IndexError \/ e = UnicodeDecodeError) /\
    (true = true ->
     Forall (fun l => utf8 l = true)
       (["P5" +:+ LF] ++ ["# type stereographic" +:+ LF]) ->
     e = IndexError) /\
    (true = false ->
     forall l, text_readline full_runtime pgm_truncated_text = Ok l ->
     e = AttributeError "decode").
Proof.
  apply (pgm_header_never_terminated full_runtime pgm_truncated_fs
           gunzip_stored "truncated.pgm.gz" true pgm_truncated_text []
           ["P5" +:+ LF] ["# type stereographic" +:+ LF]).
  - exists (gz pgm_truncated_text). split; reflexivity.
  - reflexivity.
  - repeat constructor.
  - repeat constructor.
Defined.

(** The same file read without decompression: the first [.decode()]
    raises. *)
Lemma pgm_plain_path_raises :
  _import_pgm_metadata (F:=float) full_runtime pgm_truncated_fs gunzip_stored
    "truncated.pgm" false []
  = (Raise (AttributeError "decode"), [EvOpen "truncated.pgm"])
  /\ (import_pgm full_runtime pgm_fs gunzip_stored no_raster no_proj no_float
        "composite.pgm" false []).1
     = Raise (AttributeError "decode").
Proof. split; vm_compute; reflexivity. Qed.



(** ** PGM: geodata *)

(** C8: in the PGM importer, when the projection family read from the
    header, [metadata["type"][0]], is not the literal [stereographic], the
    derivation of the geodata fails ([ValueError], "unknown projection"). *)
Theorem pgm_geodata_rejects_other_family {F : Type}
    (pyproj_Proj : string -> result (F -> F -> F * F))
    (py_float : string -> result F)
    (metadata : gmap string (pyval F)) (type : string) :
  first_of metadata "type" = Ok type ->
  type <> "stereographic" ->
  _import_pgm_geodata pyproj_Proj py_float metadata
  = Raise (ValueError ("unknown projection " +:+ type)).
Proof.
  intros Htype Hne. unfold _import_pgm_geodata. rewrite Htype.
  cbn [mbind result_bind].
  by destruct (String.eqb_spec type "stereographic").
Qed.

Lemma pgm_geodata_rejects_other_family_witness :
  _import_pgm_geodata (F:=float) no_proj no_float
    {["type" := VList ["mercator"]]}
  = Raise (ValueError ("unknown projection " +:+ "mercator")).
Proof.
  apply pgm_geodata_rejects_other_family.
  - reflexivity.
  - discriminate.
Defined.

(** ** Arrays *)

Lemma pixel_amap {A B} (f : A -> B) (R : array A) (r c : nat) :
  pixel (amap f R) r c = f <$> pixel R r c.
Proof.
  unfold pixel, amap. rewrite list_lookup_fmap.
  destruct (R !! r) as [row|]; simpl; [|done].
  by rewrite list_lookup_fmap.
Qed.

Lemma putmask_amap {A B} (f : A -> B) (g : A -> bool) (R : array A) (v : B) :
  putmask (amap f R) (amap g R) v = amap (fun s => if g s then v else f s) R.
Proof.
  unfold putmask, amap.
  rewrite zip_with_fmap_l, zip_with_fmap_r, zip_with_diag.
  apply list_fmap_ext. intros _ row _.
  by rewrite zip_with_fmap_l, zip_with_fmap_r, zip_with_diag.
Qed.

(** ** PGM: payload decoding *)

Section PgmDecodeFacts.
Context {F : Type} {A : Arith F}.

Lemma pgm_decode_pixel (missingval : Z) (R : array Z) (r c : nat) :
  pixel (pgm_decode missingval R) r c = pgm_sample missingval <$> pixel R r c.
Proof.
  unfold pgm_decode. rewrite putmask_amap, !pixel_amap.
  by destruct (pixel R r c).
Qed.

End PgmDecodeFacts.

Lemma pgm_exact_all : forallb pgm_exact_at (seqZ 0 256) = true.
Proof. vm_compute. reflexivity. Qed.

Lemma pgm_sample_other (missingval s : Z) :
  s <> missingval -> pgm_sample (F:=float) missingval s = pgm_sample (s + 1) s.
Proof.
  intros Hne. unfold pgm_sample.
  destruct (Z.eqb_spec s missingval); [done|].
  destruct (Z.eqb_spec s (s + 1)); [lia|done].
Qed.

(** C1: in the PGM importer every 8-bit sample equal to the sentinel decodes
    to NaN and every other sample [s] to the double that is exactly
    [(s - 64) / 2]; with sentinel 255 the samples [[64,66],[255,0]] decode
    to [[0.0, 1.0],[NaN, -32.0]]. *)
Theorem pgm_decode_samples :
  (forall (missingval : Z) (R : array Z) (r c : nat) (s : Z),
      pixel R r c = Some s -> 0 <= s < 256 ->
      exists v : float,
        pixel (pgm_decode missingval R) r c = Some v /\
        (s = missingval -> v = PrimFloat.nan) /\
        (s <> missingval ->
         exists q, Binary64.value v = Some q /\ (q == (s - 64) # 2)%Q))
  /\ pgm_decode 255 [[64; 66]; [255; 0]]
     = [[0%float; 1%float]; [PrimFloat.nan; (-32)%float]].
Proof.
  split; [|vm_compute; reflexivity].
  intros missingval R r c s Hpix Hs.
  exists (pgm_sample missingval s). split.
  - by rewrite pgm_decode_pixel, Hpix.
  - split.
    + intros ->. unfold pgm_sample. rewrite Z.eqb_refl. reflexivity.
    + intros Hne. rewrite (pgm_sample_other _ _ Hne).
      pose proof pgm_exact_all as Hall.
      rewrite forallb_forall in Hall.
      specialize (Hall s). unfold pgm_exact_at in Hall.
      destruct (Binary64.value (pgm_sample (s + 1) s)) as [q|] eqn:Hq.
      * exists q. split; [done|]. apply Qeq_bool_iff, Hall.
        apply list_elem_of_In, elem_of_seqZ. lia.
      * discriminate Hall. apply list_elem_of_In, elem_of_seqZ. lia.
Qed.

Lemma pgm_decode_samples_witness :
  exists v : float,
    pixel (pgm_decode 255 [[64; 66]; [255; 0]]) 0 1 = Some v /\
    (66 = 255 -> v = PrimFloat.nan) /\
    (66 <> 255 -> exists q, Binary64.value v = Some q /\ (q == (66 - 64) # 2)%Q).
Proof.
  apply (proj1 pgm_decode_samples 255 [[64; 66]; [255; 0]] 0%nat 1%nat 66).
  - reflexivity.
  - lia.
Defined.

(** ** PGM: the importer as a whole *)

Section ImportPgmFacts.
Context {F : Type} {A : Arith F}.
Variable rt : runtime.
Variable fs : filesystem.
Variable gunzip : string -> result string.
Variable imread_decode : string -> result (array Z).
Variable pyproj_Proj : string -> result (F -> F -> F * F).
Variable py_float : string -> result F.

(** X4: the field a PGM import returns is [pgm_decode] of the samples
    [imread] delivered, with the integer sentinel found under
    [missingval] in the metadata it returns. *)
Lemma import_pgm_field filename gzipped t R' geodata metadata t' :
  import_pgm rt fs gunzip imread_decode pyproj_Proj py_float filename gzipped t
  = (Ok (R', geodata, metadata), t') ->
  exists (R : array Z) (missingval : Z) (content : string),
    imread_decode content = Ok R /\
    metadata !! "missingval" = Some (VInt missingval) /\
    R' = pgm_decode missingval R.
Proof.
  unfold import_pgm. destruct (pyproj_imported rt); simpl; [|done].
  unfold mbind at 1, IO_bind at 1.
  destruct (_import_pgm_metadata rt fs gunzip filename gzipped t)
    as [[md|e] t1]; [|done].
  unfold mbind at 1, IO_bind at 1.
  match goal with |- context [match ?m t1 with _ => _ end] =>
    destruct (m t1) as [[R|e] t2] eqn:HR end; [|done].
  unfold mbind at 1, IO_bind at 1, lift at 1.
  destruct (_import_pgm_geodata pyproj_Proj py_float md) as [g|e]; [|done].
  unfold mbind at 1, IO_bind at 1, lift at 1, Py.getitem.
  destruct (md !! "missingval") as [[l|mv|s|x]|] eqn:Hmv; try done.
  unfold mret, IO_ret. intros Heq. injection Heq as <- <- <- <-.
  assert (exists content, imread_decode content = Ok R) as [content Hc].
  { destruct gzipped; simpl in HR.
    - unfold gzip_open, imread_stream, lift in HR.
      unfold mbind, IO_bind in HR.
      destruct (open_file fs filename t1) as [[c|e] t3]; [|discriminate HR].
      destruct (gunzip c) as [c'|e]; [|discriminate HR].
      destruct (imread_decode c') as [R0|e] eqn:Hc; [|discriminate HR].
      exists c'. by injection HR as <- _.
    - unfold imread, close_file, emit, lift in HR.
      unfold mbind, IO_bind in HR.
      destruct (open_file fs filename t1) as [[c|e] t3]; [|discriminate HR].
      destruct (imread_decode c) as [R0|e] eqn:Hc; [|discriminate HR].
      exists c. simpl in HR. by injection HR as <- _. }
  by exists R, mv, content.
Qed.

End ImportPgmFacts.

(** A complete import of a compressed file: the field of the FMI
    composite, its sentinel and the file events of the two passes over the
    file, the second of which leaves its handle open. *)
Lemma import_pgm_fmi :
  exists geodata metadata : gmap string (pyval float),
    import_pgm full_runtime fmi_fs gunzip_stored fmi_raster fmi_proj fmi_float
      "fmi.pgm.gz" true []
    = (Ok ([[0%float; 1%float]; [PrimFloat.nan; (-32)%float]],
           geodata, metadata),
       [EvOpen "fmi.pgm.gz"; EvClose "fmi.pgm.gz"; EvOpen "fmi.pgm.gz"])
    /\ metadata !! "missingval" = Some (VInt 255)
    /\ metadata !! "unit" = Some (VStr "dBZ")
    /\ geodata !! "yorigin" = Some (VStr "upper").
Proof.
  exists fmi_geodata, fmi_metadata.
  split; [vm_compute; reflexivity|].
  split; [vm_compute; reflexivity|].
  split; vm_compute; reflexivity.
Qed.

Lemma import_pgm_field_witness :
  exists (R' : array float) (geodata metadata : gmap string (pyval float)),
    (import_pgm full_runtime fmi_fs gunzip_stored fmi_raster fmi_proj fmi_float
       "fmi.pgm.gz" true []).1 = Ok (R', geodata, metadata)
    /\ exists (R : array Z) (missingval : Z) (content : string),
         fmi_raster content = Ok R /\
         metadata !! "missingval" = Some (VInt missingval) /\
         R' = pgm_decode missingval R.
Proof.
  destruct import_pgm_fmi as (geodata & metadata & Hrun & _).
  eexists _, geodata, metadata. rewrite Hrun. split; [reflexivity|].
  exact (import_pgm_field full_runtime fmi_fs gunzip_stored fmi_raster fmi_proj
           fmi_float "fmi.pgm.gz" true [] _ geodata metadata _ Hrun).
Defined.

(** ** Results of [mapM] *)

Lemma mapM_Ok {A B} (f : A -> result B) (l : list A) (k : list B) :
  mapM f l = Ok k <-> Forall2 (fun x y => f x = Ok y) l k.
Proof.
  revert k. induction l as [|x l IH]; intros k; simpl.
  - split.
    + intros [= <-]. constructor.
    + by intros ->%Forall2_nil_inv_l.
  - split.
    + destruct (f x) as [y|e] eqn:Hx; simpl; [|done].
      destruct (mapM f l) as [k'|e] eqn:Hl; simpl; [|done].
      intros [= <-]. constructor; [done|]. by apply IH.
    + intros (y & k' & Hx & Hl & ->)%Forall2_cons_inv_l.
      rewrite Hx. simpl. apply IH in Hl. by rewrite Hl.
Qed.

Lemma mapM_Ok_total {A B} (f : A -> result B) (l : list A) :
  Forall (fun x => exists y, f x = Ok y) l -> exists k, mapM f l = Ok k.
Proof.
  induction 1 as [|x l [y Hx] _ [k Hk]]; simpl.
  - by eexists.
  - rewrite Hx. simpl. rewrite Hk. simpl. by eexists.
Qed.

(** ** AQC: the decode table *)

Section LutFacts.
Context {F : Type} {A : Arith F} {L : Libm F}.

Lemma fill_length (f : Z -> F) (idx : list Z) (l : list F) :
  length (fold_left (fun lut i => <[Z.to_nat i := f i]> lut) idx l) = length l.
Proof.
  revert l. induction idx as [|i idx IH]; intros l; simpl; [done|].
  by rewrite IH, length_insert.
Qed.

(** After the loop has run over [range(n)], the first [n] entries hold the
    values assigned and the others are untouched. *)
Lemma fill_lookup (f : Z -> F) (n : nat) (l : list F) (k : nat) :
  (n <= length l)%nat ->
  fold_left (fun lut i => <[Z.to_nat i := f i]> lut) (seqZ 0 (Z.of_nat n)) l !! k
  = if decide (k < n)%nat then Some (f (Z.of_nat k)) else l !! k.
Proof.
  induction n as [|n IH]; intros Hn.
  - simpl. by destruct (decide (k < 0)%nat); [lia|].
  - rewrite seqZ_S, fold_left_app. simpl. rewrite Z.add_0_l, Nat2Z.id.
    destruct (decide (k = n)) as [->|Hk].
    + rewrite list_lookup_insert_eq by (rewrite fill_length; lia).
      by destruct (decide (n < S n)%nat); [|lia].
    + rewrite list_lookup_insert_ne by done.
      rewrite IH by lia.
      destruct (decide (k < n)%nat), (decide (k < S n)%nat); done || lia.
Qed.

Lemma lut_length : length lut = 256%nat.
Proof. unfold lut. by rewrite fill_length, length_replicate. Qed.

Lemma lut_lookup (i : Z) :
  0 <= i < 256 -> lut !! Z.to_nat i = Some (aqc_entry i).
Proof.
  intros Hi. unfold lut. change 256 with (Z.of_nat 256).
  rewrite fill_lookup by (rewrite length_replicate; lia).
  destruct (decide (Z.to_nat i < 256)%nat); [|lia].
  by rewrite Z2Nat.id by lia.
Qed.

Lemma lut_item_Ok (i : Z) :
  0 <= i < 256 -> lut_item i = Ok (aqc_entry i).
Proof.
  intros Hi. unfold lut_item.
  destruct (Z.ltb_spec i 0); [lia|].
  destruct (Z.ltb_spec i 0); [lia|].
  by rewrite lut_lookup.
Qed.

Lemma apply_lut_pixels (B : array Z) :
  (forall r c i, pixel B r c = Some i -> 0 <= i < 256) ->
  exists R, apply_lut B = Ok R /\
    forall r c i, pixel B r c = Some i -> pixel R r c = lut !! Z.to_nat i.
Proof.
  intros HB.
  assert (Hrows : Forall (fun row => exists y, mapM lut_item row = Ok y) B).
  { apply Forall_lookup. intros r row Hr. apply mapM_Ok_total.
    apply Forall_lookup. intros c i Hc. exists (aqc_entry i).
    apply lut_item_Ok, (HB r c). unfold pixel. by rewrite Hr. }
  destruct (mapM_Ok_total _ _ Hrows) as [R HR].
  exists R. split; [done|].
  intros r c i Hpix. unfold pixel in *.
  apply mapM_Ok in HR.
  destruct (B !! r) as [row|] eqn:Hr; simpl in Hpix; [|done].
  destruct (Forall2_lookup_l _ _ _ _ _ HR Hr) as (row' & Hr' & Hrow).
  rewrite Hr'. simpl. apply mapM_Ok in Hrow.
  destruct (Forall2_lookup_l _ _ _ _ _ Hrow Hpix) as (v & Hv & Hi).
  rewrite Hv. rewrite lut_item_Ok in Hi by (apply (HB r c); unfold pixel; by rewrite Hr).
  rewrite lut_lookup by (apply (HB r c); unfold pixel; by rewrite Hr).
  by injection Hi as ->.
Qed.

End LutFacts.

(** C2: in the AQC importer the table maps the indices 0, 1 and 251 to 254
    to 0.0, the index 255 to NaN and any other index [i] to
    [((10^((i - 71.2)/20) / 316)^(1/1.5)) * 60 / 5]; every pixel of the
    field is the table entry at the pixel's 8-bit index. *)
Theorem aqc_lut_decodes {F : Type} {A : Arith F} {L : Libm F} :
  (forall i : Z, 0 <= i < 256 ->
     lut !! Z.to_nat i =
     Some (if decide (i = 0 \/ i = 1 \/ 251 <= i <= 254) then of_dec 0.0
           else if decide (i = 255) then fnan
           else
             fdiv
               (fmul
                  (fpow
                     (fdiv
                        (fpow (of_dec 10.0)
                           (fdiv (fsub (of_int i) (of_dec 71.2)) (of_dec 20.0)))
                        (of_dec 316.0))
                     (fdiv (of_dec 1.0) (of_dec 1.5)))
                  (of_int 60))
               (of_int 5)))
  /\ (forall B : array Z,
        (forall r c i, pixel B r c = Some i -> 0 <= i < 256) ->
        exists R, apply_lut B = Ok R /\
          forall r c i, pixel B r c = Some i -> pixel R r c = lut !! Z.to_nat i).
Proof.
  split; [|apply apply_lut_pixels].
  intros i Hi. rewrite lut_lookup by done. f_equal. unfold aqc_entry.
  destruct (decide (i = 0 \/ i = 1 \/ 251 <= i <= 254)) as [Hz|Hz].
  - destruct (Z.ltb_spec i 2); [done|].
    destruct (Z.ltb_spec 250 i), (Z.ltb_spec i 255); simpl; done || lia.
  - destruct (Z.ltb_spec i 2); [lia|].
    destruct (decide (i = 255)) as [->|Hn]; [done|].
    destruct (Z.ltb_spec 250 i), (Z.ltb_spec i 255); simpl; try lia;
      destruct (Z.eqb_spec i 255); done || lia.
Qed.

Lemma aqc_lut_decodes_witness :
  lut (F:=xreal) !! Z.to_nat 100 =
  Some (if decide (100 = 0 \/ 100 = 1 \/ 251 <= 100 <= 254) then of_dec 0.0
        else if decide (100 = 255) then fnan
        else
          fdiv
            (fmul
               (fpow
                  (fdiv
                     (fpow (of_dec 10.0)
                        (fdiv (fsub (of_int 100) (of_dec 71.2)) (of_dec 20.0)))
                     (of_dec 316.0))
                  (fdiv (of_dec 1.0) (of_dec 1.5)))
               (of_int 60))
            (of_int 5)).
Proof.
  apply (proj1 (aqc_lut_decodes (F:=xreal)) 100). lia.
Defined.

(** ** AQC: the table in double precision *)

Lemma increasing_lookup (cs : list (list float)) (i j : nat)
    (c c' : list float) (a b : float) :
  increasing cs = true -> (i < j)%nat ->
  cs !! i = Some c -> cs !! j = Some c' -> In a c -> In b c' ->
  PrimFloat.ltb a b = true /\ PrimFloat.leb a b = true.
Proof.
  revert i j. induction cs as [|c0 cs IH]; intros i j Hinc Hij Hi Hj Ha Hb.
  - done.
  - cbn [increasing] in Hinc. apply andb_true_iff in Hinc as [Hhead Htail].
    destruct i as [|i].
    + destruct j as [|j]; [lia|]. simpl in Hi, Hj. injection Hi as ->.
      rewrite forallb_forall in Hhead.
      specialize (Hhead c' (proj1 (list_elem_of_In _ _)
                                (list_elem_of_lookup_2 _ _ _ Hj))).
      rewrite forallb_forall in Hhead. specialize (Hhead a Ha).
      rewrite forallb_forall in Hhead. specialize (Hhead b Hb).
      by apply andb_true_iff in Hhead.
    + destruct j as [|j]; [lia|]. simpl in Hi, Hj.
      apply (IH i j); [done|lia|done..].
Qed.

Lemma positive_lookup (cs : list (list float)) (i : nat) (c : list float)
    (a : float) :
  positive cs = true -> cs !! i = Some c -> In a c ->
  PrimFloat.ltb 0 a = true /\ PrimFloat.leb a a = true.
Proof.
  unfold positive. rewrite forallb_forall. intros Hpos Hi Ha.
  specialize (Hpos c (proj1 (list_elem_of_In _ _)
                        (list_elem_of_lookup_2 _ _ _ Hi))).
  rewrite forallb_forall in Hpos. specialize (Hpos a Ha).
  by apply andb_true_iff in Hpos.
Qed.

(** The doubles near the references, carried to the end of line 197, are
    positive and grow with the index. *)
Lemma aqc_candidates_ordered :
  increasing aqc_candidates = true /\ positive aqc_candidates = true.
Proof. split; vm_compute; reflexivity. Qed.

(** Line 197 for an index from 2 to 250, in double precision. *)
Lemma aqc_entry_root (L : Libm float) (i : Z) :
  2 <= i <= 250 ->
  aqc_entry i = fdiv (fmul (aqc_root L i) (of_int 60)) (of_int 5).
Proof.
  intros Hi. unfold aqc_entry, aqc_root.
  destruct (Z.ltb_spec i 2); [lia|].
  destruct (Z.ltb_spec 250 i); [lia|]. simpl orb. cbv iota.
  by destruct (Z.eqb_spec i 255); [lia|].
Qed.

Lemma aqc_entry_candidate (L : Libm float) (i : Z) :
  pow_accurate L -> 2 <= i <= 250 ->
  exists c, aqc_candidates !! Z.to_nat (i - 2) = Some c /\ In (aqc_entry i) c.
Proof.
  intros HL Hi. destruct (HL i Hi) as (r & Hr & Hin).
  eexists. split.
  - unfold aqc_candidates. by rewrite list_lookup_fmap, Hr.
  - rewrite (aqc_entry_root L i Hi).
    by apply (in_map (fun q => fdiv (fmul q (of_int 60)) (of_int 5))).
Qed.

(** C9: entry 0 of the AQC table is 0.0 and entry 255 is NaN whatever the
    file holds (the table takes no input), and for [2 <= i <= j <= 250] the
    entries of the [float64] table satisfy [table[i] <= table[j]], with any
    C library whose [pow] is accurate, on the arguments of the table, to
    sixteen units in the last place of the reference values. *)
Theorem aqc_lut_endpoints_and_order :
  (forall (F : Type) (A : Arith F) (L : Libm F),
      lut !! 0%nat = Some (of_dec (F:=F) 0.0) /\
      lut !! 255%nat = Some (fnan (F:=F)))
  /\ (forall L : Libm float, pow_accurate L ->
      forall i j : Z, 2 <= i -> i <= j -> j <= 250 ->
        exists x y : float,
          lut !! Z.to_nat i = Some x /\ lut !! Z.to_nat j = Some y /\ fle x y).
Proof.
  split.
  - intros F A L. split.
    + apply (lut_lookup 0). lia.
    + apply (lut_lookup 255). lia.
  - intros L HL i j Hi Hij Hj.
    exists (aqc_entry i), (aqc_entry j).
    rewrite !lut_lookup by lia. split; [done|]. split; [done|].
    destruct (aqc_entry_candidate L i HL ltac:(lia)) as (c & Hc & Ha).
    destruct (aqc_entry_candidate L j HL ltac:(lia)) as (c' & Hc' & Hb).
    destruct aqc_candidates_ordered as [Hinc Hpos].
    change (PrimFloat.leb (aqc_entry i) (aqc_entry j) = true).
    destruct (decide (i = j)) as [->|Hne].
    + exact (proj2 (positive_lookup _ _ _ _ Hpos Hc Ha)).
    + assert (Hlt : (Z.to_nat (i - 2) < Z.to_nat (j - 2))%nat) by lia.
      exact (proj2 (increasing_lookup _ _ _ _ _ _ _ Hinc Hlt Hc Hc' Ha Hb)).
Qed.

Lemma same_double_eq (x y : float) : same_double x y = true -> x = y.
Proof.
  unfold same_double. intros Hxy.
  rewrite <- (SF2Prim_Prim2SF x), <- (SF2Prim_Prim2SF y).
  destruct (Prim2SF x) as [| | |s m e]; try done.
  destruct (Prim2SF y) as [| | |s' m' e']; try done.
  apply andb_true_iff in Hxy as [Hxy He].
  apply andb_true_iff in Hxy as [Hs Hm].
  apply Bool.eqb_prop in Hs. apply Pos.eqb_eq in Hm. apply Z.eqb_eq in He.
  by subst.
Qed.

(** The tabulated C library returns the reference of every index. *)
Lemma tabulated_returns_references :
  forallb
    (fun i =>
       match aqc_root_ref !! Z.to_nat (i - 2) with
       | Some r => same_double (aqc_root tabulated_libm i) r
       | None => false
       end)
    (seqZ 2 249) = true.
Proof. vm_compute. reflexivity. Qed.

Lemma tabulated_accurate : pow_accurate tabulated_libm.
Proof.
  intros i Hi. pose proof tabulated_returns_references as Hall.
  rewrite forallb_forall in Hall.
  specialize (Hall i (proj1 (list_elem_of_In _ _)
                        (proj2 (elem_of_seqZ 2 249 i) ltac:(lia)))).
  destruct (aqc_root_ref !! Z.to_nat (i - 2)) as [r|]; [|done].
  exists r. split; [done|]. rewrite (same_double_eq _ _ Hall).
  unfold near. apply in_or_app. right. by left.
Qed.

Lemma aqc_lut_endpoints_and_order_witness :
  exists x y : float,
    @lut float binary64 tabulated_libm !! Z.to_nat 2 = Some x /\
    @lut float binary64 tabulated_libm !! Z.to_nat 250 = Some y /\ fle x y.
Proof.
  apply (proj2 aqc_lut_endpoints_and_order tabulated_libm tabulated_accurate
           2 250); lia.
Defined.

(** ** BoM: the rainfall field *)

Lemma utcfromtimestamp_range (t : Z) :
  datetime_range t -> utcfromtimestamp t = Ok t.
Proof.
  unfold utcfromtimestamp, datetime_range, datetime_min, datetime_max.
  intros Ht.
  repeat match goal with
         | |- context [?a <? ?b] => destruct (Z.ltb_spec a b); [lia|]
         | |- context [?a <=? ?b] => destruct (Z.leb_spec a b); [lia|]
         end.
  reflexivity.
Qed.

(** An instant is accepted only inside the range, and as it is. *)
Lemma utcfromtimestamp_Ok (t v : Z) :
  utcfromtimestamp t = Ok v -> v = t /\ datetime_range t.
Proof.
  unfold utcfromtimestamp, datetime_range, datetime_min, datetime_max.
  destruct (_ || _); [done|]. destruct (_ || _); [done|].
  destruct (Z.ltb_spec t (-62135596800)); [done|].
  destruct (Z.ltb_spec 253402300799 t); [done|].
  simpl. intros [= <-]. split; [done|lia].
Qed.

(** Outside the range the call raises one of three errors. *)
Lemma utcfromtimestamp_error (t : Z) (e : exn) :
  utcfromtimestamp t = Raise e ->
  e = OverflowError \/ e = OSError 75 \/ exists msg, e = ValueError msg.
Proof.
  unfold utcfromtimestamp.
  destruct (_ || _); [intros [= <-]; by left|].
  destruct (_ || _); [intros [= <-]; right; by left|].
  destruct (_ || _); [intros [= <-]; right; right; by eexists|done].
Qed.

Section BomFacts.
Context {F : Type} {A : Arith F}.
Variable fs : filesystem.
Variable nc_decode : string -> result (dataset F).
Variable py_str : F -> string.

Lemma Dataset_Ok (filename content : string) (ds : dataset F) (t : trace) :
  fs !! filename = Some content -> nc_decode content = Ok ds ->
  Dataset fs nc_decode filename t = (Ok ds, t ++ [EvOpen filename]).
Proof.
  intros Hfs Hnc. unfold Dataset, open_file, mbind, IO_bind, emit, lift. simpl.
  rewrite Hfs. simpl. by rewrite Hnc.
Qed.

(** The field is absent: [None], and the handle is closed. *)
Lemma bom_data_absent filename content ds t :
  fs !! filename = Some content -> nc_decode content = Ok ds ->
  ds_precipitation ds = None ->
  _import_bom_rf3_data fs nc_decode filename t
  = (Ok None, t ++ [EvPrint filename; EvOpen filename; EvClose filename]).
Proof.
  intros Hfs Hnc Hp. unfold _import_bom_rf3_data.
  unfold mbind at 1, IO_bind at 1, emit at 1.
  unfold mbind at 1, IO_bind at 1. rewrite (Dataset_Ok _ _ _ _ Hfs Hnc).
  rewrite Hp. unfold mbind, IO_bind, mret, IO_ret, close_file, emit. simpl.
  by rewrite <- !app_assoc.
Qed.

(** Both instants are present and inside the range of [datetime]: the
    field is multiplied by [60 / time_step] when [time_step], the whole
    minutes in the seconds field of their difference, is not zero, and left
    alone when it is. *)
Lemma bom_data_present filename content ds p vt st t :
  fs !! filename = Some content -> nc_decode content = Ok ds ->
  ds_precipitation ds = Some p ->
  ds_valid_time ds = Some vt -> ds_start_time ds = Some st ->
  datetime_range vt -> datetime_range st ->
  _import_bom_rf3_data fs nc_decode filename t
  = (Ok (Some (let time_step := timedelta_seconds vt st / 60 in
               if decide (time_step = 0) then p
               else amap (fun x => fmul x (fdiv (of_dec 60.0) (of_int time_step))) p)),
     t ++ [EvPrint filename; EvOpen filename; EvClose filename]).
Proof.
  intros Hfs Hnc Hp Hv Hs Hvr Hsr. unfold _import_bom_rf3_data.
  unfold mbind at 1, IO_bind at 1, emit at 1.
  unfold mbind at 1, IO_bind at 1. rewrite (Dataset_Ok _ _ _ _ Hfs Hnc).
  rewrite Hp, Hv, Hs.
  rewrite (utcfromtimestamp_range _ Hvr), (utcfromtimestamp_range _ Hsr).
  cbv zeta.
  unfold mbind, IO_bind, mret, IO_ret, close_file, emit, lift, local, truediv.
  destruct (decide (timedelta_seconds vt st / 60 = 0)) as [Hz|Hz].
  - rewrite Hz. simpl. by rewrite <- !app_assoc.
  - destruct (Z.eqb_spec (timedelta_seconds vt st / 60) 0); [done|].
    simpl. by rewrite <- !app_assoc.
Qed.

(** An instant is absent, the other one, if present, inside the range of
    [datetime]: [time_step] is read before it is bound, and the handle
    stays open. *)
Lemma bom_data_unbound filename content ds p t :
  fs !! filename = Some content -> nc_decode content = Ok ds ->
  ds_precipitation ds = Some p ->
  ds_valid_time ds = None \/ ds_start_time ds = None ->
  (forall vt, ds_valid_time ds = Some vt -> datetime_range vt) ->
  (forall st, ds_start_time ds = Some st -> datetime_range st) ->
  _import_bom_rf3_data fs nc_decode filename t
  = (Raise (UnboundLocalError "time_step"),
     t ++ [EvPrint filename; EvOpen filename]).
Proof.
  intros Hfs Hnc Hp Hvs Hvr Hsr. unfold _import_bom_rf3_data.
  unfold mbind at 1, IO_bind at 1, emit at 1.
  unfold mbind at 1, IO_bind at 1. rewrite (Dataset_Ok _ _ _ _ Hfs Hnc).
  rewrite Hp.
  destruct (ds_valid_time ds) as [vt|];
    [rewrite (utcfromtimestamp_range vt) by (by apply Hvr)|];
    (destruct (ds_start_time ds) as [st|];
     [rewrite (utcfromtimestamp_range st) by (by apply Hsr)|]);
    [by destruct Hvs| | |];
    cbv zeta; unfold mbind, IO_bind, mret, IO_ret, lift, local; simpl;
    by rewrite <- !app_assoc.
Qed.

(** The importer never divides by zero: whatever the dataset holds, the
    error it may raise is another one. *)
Lemma bom_data_no_division_by_zero filename content ds t :
  fs !! filename = Some content -> nc_decode content = Ok ds ->
  (_import_bom_rf3_data fs nc_decode filename t).1 <> Raise ZeroDivisionError.
Proof.
  intros Hfs Hnc. unfold _import_bom_rf3_data.
  unfold mbind at 1, IO_bind at 1, emit at 1.
  unfold mbind at 1, IO_bind at 1. rewrite (Dataset_Ok _ _ _ _ Hfs Hnc).
  destruct (ds_precipitation ds) as [p|]; [|done].
  unfold mbind, IO_bind, mret, IO_ret, close_file, emit, lift, local, truediv.
  destruct (ds_valid_time ds) as [vt|].
  - destruct (utcfromtimestamp vt) as [v|e] eqn:Hv.
    + destruct (ds_start_time ds) as [st|].
      * destruct (utcfromtimestamp st) as [s|e] eqn:Hs.
        -- simpl. by destruct (Z.eqb_spec (timedelta_seconds v s / 60) 0).
        -- simpl. intros [= ->].
           by destruct (utcfromtimestamp_error _ _ Hs) as [?|[?|[? ?]]].
      * done.
    + simpl. intros [= ->].
      by destruct (utcfromtimestamp_error _ _ Hv) as [?|[?|[? ?]]].
  - destruct (ds_start_time ds) as [st|]; [|done].
    destruct (utcfromtimestamp st) as [s|e] eqn:Hs; [done|].
    simpl. intros [= ->].
    by destruct (utcfromtimestamp_error _ _ Hs) as [?|[?|[? ?]]].
Qed.

(** C10: in the BoM importer, when both instants are present, are instants
    a [datetime] can hold and differ by less than a whole minute, the
    field is returned as read; and on a dataset that was opened the
    importer never raises [ZeroDivisionError]: the division by the time
    step is guarded. *)
Theorem bom_zero_timestep_guarded filename content ds t :
  fs !! filename = Some content -> nc_decode content = Ok ds ->
  (forall p vt st,
      ds_precipitation ds = Some p ->
      ds_valid_time ds = Some vt -> ds_start_time ds = Some st ->
      datetime_range vt -> datetime_range st ->
      (vt - st) / 60 = 0 ->
      (_import_bom_rf3_data fs nc_decode filename t).1 = Ok (Some p))
  /\ (_import_bom_rf3_data fs nc_decode filename t).1 <> Raise ZeroDivisionError.
Proof.
  intros Hfs Hnc. split.
  - intros p vt st Hp Hv Hs Hvr Hsr Hz.
    rewrite (bom_data_present _ _ _ _ _ _ _ Hfs Hnc Hp Hv Hs Hvr Hsr). simpl.
    assert (0 <= vt - st < 60) as Hd
      by (apply Z.div_small_iff in Hz; lia).
    unfold timedelta_seconds. rewrite (Z.mod_small (vt - st) 86400) by lia.
    by destruct (decide ((vt - st) / 60 = 0)).
  - by apply (bom_data_no_division_by_zero _ content ds).
Qed.

End BomFacts.

Lemma datetime_range_sample (t : Z) :
  (datetime_min <=? t) && (t <=? datetime_max) = true -> datetime_range t.
Proof.
  intros [H1 H2]%andb_true_iff. apply Z.leb_le in H1, H2. by split.
Defined.

Lemma bom_zero_timestep_guarded_witness :
  (_import_bom_rf3_data bom_fs (nc_const bom_same_instant) "rf3.nc" []).1
  = Ok (Some [[5%float]]).
Proof.
  refine (proj1 (bom_zero_timestep_guarded bom_fs (nc_const bom_same_instant)
                   "rf3.nc" "CDF" bom_same_instant [] _ _)
            [[5%float]] 300 300 _ _ _ _ _ _);
    try reflexivity; apply datetime_range_sample; reflexivity.
Defined.

(** Two instants of the year 10000, on the same second: the conversion of
    the first raises, and the dataset stays open. *)
Lemma bom_year_10000_raises :
  _import_bom_rf3_data bom_fs (nc_const bom_year_10000) "rf3.nc" []
  = (Raise (ValueError "year 10000 is out of range"),
     [EvPrint "rf3.nc"; EvOpen "rf3.nc"]).
Proof. vm_compute. reflexivity. Qed.

(** The worked example of the rescaling: 5 mm over five minutes is
    60 mm/h. *)
Lemma bom_five_minutes_rate :
  (_import_bom_rf3_data bom_fs (nc_const bom_five_minutes) "rf3.nc" []).1
  = Ok (Some [[60%float]]).
Proof. vm_compute. reflexivity. Qed.

(** C3: in the BoM importer a dataset that carries the field but neither
    [valid_time] nor [start_time] does not come back unscaled: reading the
    unbound [time_step] raises [UnboundLocalError], after the file was
    opened and before it is closed. *)
Theorem bom_no_instants_raises :
  _import_bom_rf3_data bom_fs (nc_const bom_no_instants) "rf3.nc" []
  = (Raise (UnboundLocalError "time_step"),
     [EvPrint "rf3.nc"; EvOpen "rf3.nc"]).
Proof. vm_compute. reflexivity. Qed.

(** ** BoM: the projection *)

Section BomGeodataFacts.
Context {F : Type}.
Variable fs : filesystem.
Variable nc_decode : string -> result (dataset F).
Variable py_str : F -> string.

(** X3: in the BoM importer a variable [proj] whose [grid_mapping_name] is
    not [albers_conical_equal_area] yields the projection [None]; the file
    is opened once and closed. *)
Lemma bom_geodata_other_family filename content ds projection name t :
  fs !! filename = Some content -> nc_decode content = Ok ds ->
  ds_proj ds = Some projection ->
  grid_mapping_name projection = Some name ->
  name <> "albers_conical_equal_area" ->
  _import_bom_rf3_geodata fs nc_decode py_str filename t
  = (Ok None, t ++ [EvOpen filename; EvClose filename]).
Proof.
  intros Hfs Hnc Hp Hname Hne. unfold _import_bom_rf3_geodata.
  unfold mbind at 1, IO_bind at 1. rewrite (Dataset_Ok _ _ _ _ _ _ Hfs Hnc).
  rewrite Hp, Hname.
  unfold mbind, IO_bind, mret, IO_ret, close_file, emit, lift, local, getattr.
  destruct (String.eqb_spec name "albers_conical_equal_area"); [done|].
  simpl. by rewrite <- !app_assoc.
Qed.

(** The variable [proj] is absent: the handle is closed, then [projdef] is
    read before it is bound. *)
Lemma bom_geodata_absent filename content ds t :
  fs !! filename = Some content -> nc_decode content = Ok ds ->
  ds_proj ds = None ->
  _import_bom_rf3_geodata fs nc_decode py_str filename t
  = (Raise (UnboundLocalError "projdef"),
     t ++ [EvOpen filename; EvClose filename]).
Proof.
  intros Hfs Hnc Hp. unfold _import_bom_rf3_geodata.
  unfold mbind at 1, IO_bind at 1. rewrite (Dataset_Ok _ _ _ _ _ _ Hfs Hnc).
  rewrite Hp.
  unfold mbind, IO_bind, mret, IO_ret, close_file, emit, lift, local.
  simpl. by rewrite <- !app_assoc.
Qed.

End BomGeodataFacts.

(** The two outcomes of the BoM importer that are [None]: no field, and a
    projection of another family. *)
Lemma bom_none_outcomes (py_str : float -> string) :
  (_import_bom_rf3_data bom_fs (nc_const bom_mercator) "rf3.nc" []).1 = Ok None
  /\ (_import_bom_rf3_geodata bom_fs (nc_const bom_mercator) py_str "rf3.nc" []).1
     = Ok None.
Proof. split; vm_compute; reflexivity. Qed.

(** C5: in the BoM importer a dataset without the variable [proj] does not
    yield a [None] projection: [projdef] is returned before it is bound and
    the import raises [UnboundLocalError]. *)
Theorem bom_no_proj_raises (py_str : float -> string) :
  _import_bom_rf3_geodata bom_fs (nc_const bom_no_instants) py_str "rf3.nc" []
  = (Raise (UnboundLocalError "projdef"), [EvOpen "rf3.nc"; EvClose "rf3.nc"])
  /\ (import_bom_rf3 full_runtime
        bom_fs (nc_const bom_five_minutes) py_str "rf3.nc" []).1
     = Raise (UnboundLocalError "projdef").
Proof. split; vm_compute; reflexivity. Qed.

(** ** Worked examples *)

Lemma bom_geodata_other_family_witness :
  _import_bom_rf3_geodata bom_fs (nc_const bom_mercator) no_str "rf3.nc" []
  = (Ok None, [] ++ [EvOpen "rf3.nc"; EvClose "rf3.nc"]).
Proof.
  apply (bom_geodata_other_family bom_fs (nc_const bom_mercator) no_str
           "rf3.nc" "CDF" bom_mercator
           {| grid_mapping_name := Some "mercator";
              longitude_of_central_meridian := None;
              latitude_of_projection_origin := None;
              standard_parallel := None |}
           "mercator" []); try reflexivity.
  discriminate.
Defined.

(** The time step is read from the seconds field of the difference, which
    leaves whole days out: one day and five minutes rescale like five
    minutes. *)
Lemma bom_day_and_five_minutes_rate :
  (_import_bom_rf3_data bom_fs (nc_const bom_day_and_five_minutes) "rf3.nc" []).1
  = Ok (Some [[60%float]]).
Proof. vm_compute. reflexivity. Qed.

(** The AQC table in double precision, with the tabulated C library: the
    rain rates of the indices 2, 100 and 250, about 0.0013, 2.36 and
    235897 mm/h. *)
Lemma aqc_table_samples :
  @lut float binary64 tabulated_libm !! 2%nat = Some 0x1.4ea7820d82fe1p-10%float
  /\ @lut float binary64 tabulated_libm !! 100%nat = Some 0x1.2df2ddd796db6p+1%float
  /\ @lut float binary64 tabulated_libm !! 250%nat = Some 0x1.ccbcb5c116913p+17%float.
Proof. repeat split; vm_compute; reflexivity. Qed.

(** The decimal literals of the importers, as doubles. *)
Lemma binary64_literals :
  of_dec (F:=float) 71.2 = 0x1.1cccccccccccdp+6%float
  /\ of_dec (F:=float) 64.0 = 64%float
  /\ of_dec (F:=float) 1.5 = 1.5%float
  /\ of_dec (F:=float) 316.0 = 316%float.
Proof. repeat split. Qed.

(** Python's string operations on the lines of a header. *)
Lemma py_string_examples :
  Py.split (Py.strip (Py.tail ("# bottomleft 18.6 57.93" +:+ LF)))
  = ["bottomleft"; "18.6"; "57.93"]
  /\ Py.split (Py.strip (Py.tail ("#" +:+ LF))) = [""]
  /\ Py.split "a  b" = ["a"; ""; "b"]
  /\ Py.int ("255" +:+ LF) = Ok 255
  /\ Py.int " -1_0 " = Ok (-10)
  /\ Py.int "760 1226" = Raise (ValueError "invalid literal for int() with base 10")
  /\ Py.int "" = Raise (ValueError "invalid literal for int() with base 10")
  /\ lines ("P5" +:+ LF +:+ LF +:+ "7") = ["P5" +:+ LF; LF; "7"].
Proof. repeat split. Qed.

(** A comment line with fewer than two fields adds nothing to the
    dictionary. *)
Lemma comment_entry_short {F} (md : gmap string (pyval F)) (l : string) :
  (length (Py.split (Py.strip (Py.tail l))) < 2)%nat ->
  comment_entry md l = md.
Proof.
  intros Hlen. unfold comment_entry.
  by destruct (Nat.leb_spec 2 (length (Py.split (Py.strip (Py.tail l)))));
    [lia|].
Qed.

(** ** PGM: the dictionary of the header *)

Section PgmDictionaryFacts.
Context {F : Type}.






Lemma pgm_header_missingval (f : list string) (md : gmap string (pyval F)) :
  pgm_header f = Ok md -> exists n, md !! "missingval" = Some (VInt n).
Proof.
  unfold pgm_header.
  destruct (seek_comment f) as [[l f1]|e]; [|done]. cbn [mbind result_bind].
  destruct (read_comments ∅ l f1) as [[[md1 l1] f2]|e]; [|done].
  cbn [mbind result_bind]. destruct (readline f2) as [b2 f3].
  destruct (bytes_decode b2) as [l2|e]; [|done]. cbn [mbind result_bind].
  destruct (Py.int l2) as [n|e]; [|done]. cbn [mbind result_bind].
  intros [= <-]. exists n. by rewrite lookup_insert_eq.
Qed.

Variable rt : runtime.
Variable fs : filesystem.
Variable gunzip : string -> result string.

(** X6: whenever the header extraction of the PGM importer returns, the
    metadata hold the institution, the time step 5, the unit [dBZ] and an
    integer sentinel, whatever the comment lines of the file assign to
    these keys. *)
Theorem pgm_metadata_constants filename gzipped t
    (md : gmap string (pyval F)) t' :
  _import_pgm_metadata rt fs gunzip filename gzipped t = (Ok md, t') ->
  md !! "institution" = Some (VStr "Finnish Meteorological Institute")
  /\ md !! "timestep" = Some (VInt 5)
  /\ md !! "unit" = Some (VStr "dBZ")
  /\ exists n, md !! "missingval" = Some (VInt n).
Proof.
  unfold _import_pgm_metadata. destruct gzipped; cbn [negb].
  - unfold mbind at 1, IO_bind at 1.
    destruct (gzip_open fs gunzip filename t) as [[f|e] t1]; [|done].
    unfold mbind at 1, IO_bind at 1, lift at 1.
    destruct (pgm_header (F:=F) (lines f)) as [md0|e] eqn:Hmd0; [|done].
    unfold mbind, IO_bind, close_file, emit, mret, IO_ret.
    intros [= <- <-]. unfold pgm_constants.
    destruct (pgm_header_missingval _ _ Hmd0) as [n Hn].
    repeat split.
    + by rewrite !lookup_insert_ne, lookup_insert_eq by done.
    + by rewrite lookup_insert_ne, lookup_insert_eq by done.
    + by rewrite lookup_insert_eq.
    + exists n. by rewrite !lookup_insert_ne by done.
  - unfold mbind at 1, IO_bind at 1.
    destruct (open_file fs filename t) as [[f|e] t1]; [|done].
    unfold mbind, IO_bind, lift, str_decode.
    by destruct (text_readline rt f).
Qed.


End PgmDictionaryFacts.
(** ** PGM: whole imports *)

Lemma string_app_assoc (s1 s2 s3 : string) :
  (s1 +:+ s2) +:+ s3 = s1 +:+ (s2 +:+ s3).
Proof.
  induction s1 as [|c s1 IH]; [done|].
  change (String c ((s1 +:+ s2) +:+ s3) = String c (s1 +:+ s2 +:+ s3)).
  by f_equal.
Qed.

Section ImportPgmRuns.
Context {F : Type} {A : Arith F}.
Variable rt : runtime.
Variable fs : filesystem.
Variable gunzip : string -> result string.
Variable imread_decode : string -> result (array Z).
Variable pyproj_Proj : string -> result (F -> F -> F * F).
Variable py_float : string -> result F.






(** X10: whenever the derivation of the PGM geodata returns, the family is
    [stereographic], the dictionary has exactly the eight keys of the
    interface, its origin is [upper] and its projection is the definition
    assembled from the three header values and the fixed constants. *)
Theorem pgm_geodata_keys (metadata geodata : gmap string (pyval F)) :
  _import_pgm_geodata pyproj_Proj py_float metadata = Ok geodata ->
  first_of metadata "type" = Ok "stereographic"
  /\ dom geodata = geodata_keys
  /\ geodata !! "yorigin" = Some (VStr "upper")
  /\ exists lon_0 lat_0 lat_ts,
       first_of metadata "centrallongitude" = Ok lon_0 /\
       first_of metadata "centrallatitude" = Ok lat_0 /\
       first_of metadata "truelatitude" = Ok lat_ts /\
       geodata !! "projection"
       = Some (VStr ("+proj=stere  +lon_0=" +:+ lon_0 +:+ "E +lat_0=" +:+ lat_0
                     +:+ "N +lat_ts=" +:+ lat_ts
                     +:+ " +a=6371288 +x_0=380886.310 +y_0=3395677.920 +no_defs")).
Proof.
  unfold _import_pgm_geodata. cbv zeta.
  destruct (first_of metadata "type") as [type|e]; [|done].
  cbn [mbind result_bind].
  destruct (String.eqb_spec type "stereographic") as [->|Hne]; [|done].
  simpl negb. cbv iota.
  destruct (first_of metadata "centrallongitude") as [lon_0|e]; [|done].
  cbn [mbind result_bind].
  destruct (first_of metadata "centrallatitude") as [lat_0|e]; [|done].
  cbn [mbind result_bind].
  destruct (first_of metadata "truelatitude") as [lat_ts|e]; [|done].
  cbn [mbind result_bind].
  destruct (floats_of py_float metadata "bottomleft") as [ll|e]; [|done].
  cbn [mbind result_bind].
  destruct (unpack2 ll) as [[ll_lon ll_lat]|e]; [|done].
  cbn [mbind result_bind].
  destruct (floats_of py_float metadata "topright") as [ur|e]; [|done].
  cbn [mbind result_bind].
  destruct (unpack2 ur) as [[ur_lon ur_lat]|e]; [|done].
  cbn [mbind result_bind].
  destruct (pyproj_Proj _) as [pr|e]; [|done].
  cbn [mbind result_bind].
  destruct (pr ll_lon ll_lat) as [x1 y1], (pr ur_lon ur_lat) as [x2 y2].
  destruct (first_of metadata "metersperpixel_x") as [sx|e]; [|done].
  cbn [mbind result_bind].
  destruct (py_float sx) as [xpixelsize|e]; [|done].
  cbn [mbind result_bind].
  destruct (first_of metadata "metersperpixel_y") as [sy|e]; [|done].
  cbn [mbind result_bind].
  destruct (py_float sy) as [ypixelsize|e]; [|done].
  cbn [mbind result_bind].
  intros [= <-]. split; [done|]. split.
  - rewrite !dom_insert_L, dom_empty_L. unfold geodata_keys. set_solver.
  - split; [by rewrite lookup_insert_eq|].
    exists lon_0, lat_0, lat_ts. repeat split.
    rewrite !lookup_insert_ne by done. rewrite lookup_insert_eq.
    do 2 f_equal. by rewrite !string_app_assoc.
Qed.

End ImportPgmRuns.
(** ** Files that are not there *)

(** X9: with its package loaded, each importer called on a path that is not
    on the disk raises the [IOError] of the file-access layer unchanged,
    after the one attempt to open the file ([print]ed first by the BoM
    importer). *)
Theorem missing_file_raises {F : Type} {A : Arith F} {L : Libm F}
    (rt : runtime) (fs : filesystem)
    (gunzip : string -> result string)
    (imread_decode pil_decode : string -> result (array Z))
    (nc_decode : string -> result (dataset F))
    (pyproj_Proj : string -> result (F -> F -> F * F))
    (py_float : string -> result F) (py_str : F -> string)
    (filename : string) (gzipped : bool) (t : trace) :
  fs !! filename = None ->
  (pyproj_imported rt = true ->
   import_pgm rt fs gunzip imread_decode pyproj_Proj py_float filename gzipped t
   = (Raise (IOError filename), t ++ [EvOpen filename]))
  /\ (pil_imported rt = true ->
      import_aqc rt fs pil_decode filename t
      = (Raise (IOError filename), t ++ [EvOpen filename]))
  /\ (netcdf4_imported rt = true ->
      import_bom_rf3 rt fs nc_decode py_str filename t
      = (Raise (IOError filename), t ++ [EvPrint filename; EvOpen filename])).
Proof.
  intros Hfs. repeat split; intros Hrt.
  - unfold import_pgm, _import_pgm_metadata, gzip_open, open_file, raise, lift.
    rewrite Hrt. unfold mbind, IO_bind, emit.
    destruct gzipped; simpl; by rewrite Hfs.
  - unfold import_aqc, open_file, raise, lift. rewrite Hrt.
    unfold mbind, IO_bind, emit. simpl. by rewrite Hfs.
  - unfold import_bom_rf3, _import_bom_rf3_data, Dataset, open_file, raise, lift.
    rewrite Hrt. unfold mbind, IO_bind, emit. simpl. rewrite Hfs.
    by rewrite <- app_assoc.
Qed.

(** ** The shape of the decoded field *)

Lemma shape_amap {A B} (f : A -> B) (R : array A) :
  shape (amap f R) = shape R.
Proof.
  unfold shape, amap. rewrite <- list_fmap_compose.
  apply list_fmap_ext. intros _ row _. simpl. by rewrite length_fmap.
Qed.

Lemma shape_mapM {A B} (f : A -> result B) (R : array A) (R' : array B) :
  mapM (mapM f) R = Ok R' -> shape R' = shape R.
Proof.
  intros HR%mapM_Ok. unfold shape.
  induction HR as [|row row' R R' Hrow _ IH]; [done|].
  simpl. f_equal; [|done].
  apply mapM_Ok in Hrow. symmetry. by eapply Forall2_length.
Qed.

(** X12: the decoded field has the shape of the raster, row by row: in the
    PGM importer always, in the AQC importer whenever the lookup returns. *)
Theorem decoded_field_shape {F : Type} {A : Arith F} {L : Libm F} :
  (forall (missingval : Z) (R : array Z),
      shape (pgm_decode (F:=F) missingval R) = shape R)
  /\ (forall (B : array Z) (R : array F),
        apply_lut B = Ok R -> shape R = shape B).
Proof.
  split.
  - intros missingval R. unfold pgm_decode.
    by rewrite putmask_amap, !shape_amap.
  - intros B R. apply shape_mapM.
Qed.

(** ** PGM: what the decoded values tell *)

Lemma pgm_sample_value (missingval s : Z) :
  0 <= s < 256 -> s <> missingval ->
  exists q, Binary64.value (pgm_sample (F:=float) missingval s) = Some q /\
            (q == (s - 64) # 2)%Q.
Proof.
  intros Hs Hne. rewrite (pgm_sample_other _ _ Hne).
  pose proof pgm_exact_all as Hall. rewrite forallb_forall in Hall.
  specialize (Hall s). unfold pgm_exact_at in Hall.
  destruct (Binary64.value (pgm_sample (s + 1) s)) as [q|].
  - exists q. split; [done|]. apply Qeq_bool_iff, Hall.
    apply list_elem_of_In, elem_of_seqZ. lia.
  - discriminate Hall. apply list_elem_of_In, elem_of_seqZ. lia.
Qed.

Lemma pgm_sample_sentinel (missingval : Z) :
  pgm_sample (F:=float) missingval missingval = PrimFloat.nan.
Proof. unfold pgm_sample. rewrite Z.eqb_refl. reflexivity. Qed.

(** X13: the decoding of the PGM importer loses nothing: two 8-bit samples
    that decode to the same value are the same sample, so NaN stands for
    the sentinel alone and every other value for one sample. *)
Theorem pgm_decode_injective (missingval : Z) (R : array Z)
    (r c r' c' : nat) (s s' : Z) :
  pixel R r c = Some s -> pixel R r' c' = Some s' ->
  0 <= s < 256 -> 0 <= s' < 256 ->
  pixel (pgm_decode (F:=float) missingval R) r c
  = pixel (pgm_decode missingval R) r' c' ->
  s = s'.
Proof.
  intros Hp Hp' Hs Hs'. rewrite !pgm_decode_pixel, Hp, Hp'.
  cbn [fmap option_fmap option_map]. intros Heq0.
  assert (Heq : pgm_sample (F:=float) missingval s = pgm_sample missingval s')
    by (by injection Heq0).
  clear Heq0.
  destruct (decide (s = missingval)) as [->|Hne];
    destruct (decide (s' = missingval)) as [->|Hne']; [done| | |].
  - destruct (pgm_sample_value missingval s' Hs' Hne') as (q & Hq & _).
    rewrite <- Heq, pgm_sample_sentinel in Hq. discriminate Hq.
  - destruct (pgm_sample_value missingval s Hs Hne) as (q & Hq & _).
    rewrite Heq, pgm_sample_sentinel in Hq. discriminate Hq.
  - destruct (pgm_sample_value missingval s Hs Hne) as (q & Hq & Hv).
    destruct (pgm_sample_value missingval s' Hs' Hne') as (q' & Hq' & Hv').
    rewrite Heq, Hq' in Hq. injection Hq as ->.
    rewrite Hv in Hv'. unfold Qeq in Hv'. simpl in Hv'. lia.
Qed.

Lemma pgm_range_all : forallb pgm_range_at (seqZ 0 256) = true.
Proof. vm_compute. reflexivity. Qed.

(** X14: every 8-bit sample other than the sentinel decodes to a
    reflectivity between -32 and 95.5 dBZ. *)
Theorem pgm_decode_range (missingval : Z) (R : array Z) (r c : nat) (s : Z) :
  pixel R r c = Some s -> 0 <= s < 256 -> s <> missingval ->
  exists v : float,
    pixel (pgm_decode missingval R) r c = Some v /\
    fle (-32)%float v /\ fle v 95.5%float.
Proof.
  intros Hp Hs Hne. exists (pgm_sample missingval s). split.
  - by rewrite pgm_decode_pixel, Hp.
  - rewrite (pgm_sample_other _ _ Hne).
    pose proof pgm_range_all as Hall. rewrite forallb_forall in Hall.
    specialize (Hall s). unfold pgm_range_at in Hall.
    apply andb_true_iff, Hall, list_elem_of_In, elem_of_seqZ. lia.
Qed.

(** ** AQC: whole imports and indices outside the table *)

Section ImportAqcRuns.
Context {F : Type} {A : Arith F} {L : Libm F}.
Variable rt : runtime.
Variable fs : filesystem.
Variable pil_decode : string -> result (array Z).

(** X17: with PIL loaded, a file that is on the disk and decodes to 8-bit
    indices is imported with one opening of the file: the field holds the
    table entry of every pixel, the geodata are the fixed ones, and the
    metadata name MeteoSwiss, the time step 5 and the unit mm/h. *)
Theorem import_aqc_field filename content (B : array Z) t :
  pil_imported rt = true ->
  fs !! filename = Some content -> pil_decode content = Ok B ->
  (forall r c i, pixel B r c = Some i -> 0 <= i < 256) ->
  exists (R : array F) (metadata : gmap string (pyval F)),
    import_aqc rt fs pil_decode filename t
    = (Ok (R, _import_aqc_geodata, metadata), t ++ [EvOpen filename])
    /\ (forall r c i, pixel B r c = Some i -> pixel R r c = Some (aqc_entry i))
    /\ metadata !! "institution" = Some (VStr "MeteoSwiss")
    /\ metadata !! "timestep" = Some (VInt 5)
    /\ metadata !! "unit" = Some (VStr "mm/h").
Proof.
  intros Hrt Hfs HB Hrange.
  destruct (apply_lut_pixels B Hrange) as (R & HR & Hpix).
  exists R. eexists. split.
  - unfold import_aqc, open_file, lift. rewrite Hrt.
    unfold mbind, IO_bind, mret, IO_ret, emit. simpl.
    rewrite Hfs. simpl. rewrite HB, HR. reflexivity.
  - split.
    + intros r c i Hi. rewrite (Hpix r c i Hi).
      apply lut_lookup. by apply (Hrange r c).
    + by rewrite lookup_insert_ne, lookup_insert_ne, lookup_insert_eq,
        lookup_insert_ne, lookup_insert_eq, lookup_insert_eq by done.
Qed.

Lemma lut_item_raises (i : Z) (e : exn) :
  lut_item i = Raise e -> e = IndexError.
Proof.
  unfold lut_item. destruct (_ <? 0); [by intros [= <-]|].
  destruct (lut !! _); [done|by intros [= <-]].
Qed.

Lemma mapM_raises {X Y} (f : X -> result Y) (e0 : exn) (l : list X) :
  (forall x e, f x = Raise e -> e = e0) ->
  Exists (fun x => exists e, f x = Raise e) l ->
  mapM f l = Raise e0.
Proof.
  intros Hf. induction 1 as [x l [e He]|x l _ IH]; simpl.
  - rewrite He. simpl. by rewrite (Hf _ _ He).
  - destruct (f x) as [y|e] eqn:Hx; simpl.
    + by rewrite IH.
    + by rewrite (Hf _ _ Hx).
Qed.

Lemma mapM_Raise {X Y} (f : X -> result Y) (l : list X) (e : exn) :
  mapM f l = Raise e -> exists x, x ∈ l /\ f x = Raise e.
Proof.
  induction l as [|x l IH]; simpl; [done|].
  destruct (f x) as [y|e'] eqn:Hx; simpl.
  - destruct (mapM f l) as [k|e'] eqn:Hl; simpl; [done|].
    intros [= <-]. destruct IH as (x' & Hin & Hx'); [done|].
    exists x'. split; [by right|done].
  - intros [= <-]. exists x. split; [by left|done].
Qed.

(** X18: the lookup follows numpy on the indices a raster may hold: an index
    from -256 to -1 counts from the end of the table, and one index below
    -256 or above 255 anywhere in the raster makes the lookup raise
    [IndexError]. *)
Theorem apply_lut_bounds :
  (forall i : Z, -256 <= i < 0 -> lut_item i = Ok (aqc_entry (i + 256)))
  /\ (forall (B : array Z) (r c : nat) (i : Z),
        pixel B r c = Some i -> i < -256 \/ 256 <= i ->
        apply_lut B = Raise IndexError).
Proof.
  split.
  - intros i Hi. unfold lut_item. rewrite lut_length.
    destruct (Z.ltb_spec i 0); [|lia].
    destruct (Z.ltb_spec (i + Z.of_nat 256) 0); [lia|].
    rewrite lut_lookup by lia. reflexivity.
  - intros B r c i Hpix Hi. unfold apply_lut. unfold pixel in Hpix.
    destruct (B !! r) as [row|] eqn:Hr; simpl in Hpix; [|done].
    assert (Hitem : lut_item i = Raise IndexError).
    { unfold lut_item. rewrite lut_length.
      destruct (Z.ltb_spec i 0).
      - destruct (Z.ltb_spec (i + Z.of_nat 256) 0); [done|lia].
      - destruct (Z.ltb_spec i 0); [lia|].
        rewrite lookup_ge_None_2; [done|]. rewrite lut_length. lia. }
    apply mapM_raises.
    + intros row' e (x & _ & Hx)%mapM_Raise. by eapply lut_item_raises.
    + apply Exists_exists. exists row. split; [by eapply list_elem_of_lookup_2|].
      exists IndexError. apply mapM_raises; [apply lut_item_raises|].
      apply Exists_exists. exists i. split; [by eapply list_elem_of_lookup_2|].
      by eexists.
Qed.

End ImportAqcRuns.

(** ** BoM: the Albers projection *)

Section BomAlbersFacts.
Context {F : Type}.
Variable fs : filesystem.
Variable nc_decode : string -> result (dataset F).
Variable py_str : F -> string.

(** A complete Albers variable: the definition is assembled, and the
    handle is closed. *)
Lemma bom_geodata_albers filename content ds projection
    (lon_0 lat_0 p0 p1 : F) (more : list F) t :
  fs !! filename = Some content -> nc_decode content = Ok ds ->
  ds_proj ds = Some projection ->
  grid_mapping_name projection = Some "albers_conical_equal_area" ->
  longitude_of_central_meridian projection = Some lon_0 ->
  latitude_of_projection_origin projection = Some lat_0 ->
  standard_parallel projection = Some (p0 :: p1 :: more) ->
  _import_bom_rf3_geodata fs nc_decode py_str filename t
  = (Ok (Some ("+proj=aea  +lon_0=" +:+ py_str lon_0 +:+ " +lat_0="
               +:+ py_str lat_0 +:+ " +lat_1=" +:+ py_str p0 +:+ " +lat_2="
               +:+ py_str p1)),
     t ++ [EvOpen filename; EvClose filename]).
Proof.
  intros Hfs Hnc Hp Hname Hlon Hlat Hpar. unfold _import_bom_rf3_geodata.
  unfold mbind at 1, IO_bind at 1. rewrite (Dataset_Ok _ _ _ _ _ _ Hfs Hnc).
  rewrite Hp, Hname, Hlon, Hlat, Hpar.
  unfold mbind, IO_bind, mret, IO_ret, close_file, emit, lift, local, getattr,
    parallel.
  simpl. rewrite <- !app_assoc. do 3 f_equal.
  by rewrite !string_app_assoc.
Qed.

(** X20: in the BoM importer an error inside the branch of [proj] leaves the
    dataset open: a variable without [grid_mapping_name] raises
    [AttributeError], an Albers variable with fewer than two standard
    parallels raises [IndexError], and in both cases the file was opened
    and is not closed. *)
Theorem bom_geodata_error_leaves_open filename content ds projection t :
  fs !! filename = Some content -> nc_decode content = Ok ds ->
  ds_proj ds = Some projection ->
  (grid_mapping_name projection = None ->
   _import_bom_rf3_geodata fs nc_decode py_str filename t
   = (Raise (AttributeError "grid_mapping_name"), t ++ [EvOpen filename]))
  /\ (forall lon_0 lat_0 parallels,
        grid_mapping_name projection = Some "albers_conical_equal_area" ->
        longitude_of_central_meridian projection = Some lon_0 ->
        latitude_of_projection_origin projection = Some lat_0 ->
        standard_parallel projection = Some parallels ->
        (length parallels < 2)%nat ->
        _import_bom_rf3_geodata fs nc_decode py_str filename t
        = (Raise IndexError, t ++ [EvOpen filename])).
Proof.
  intros Hfs Hnc Hp. split.
  - intros Hname. unfold _import_bom_rf3_geodata.
    unfold mbind at 1, IO_bind at 1. rewrite (Dataset_Ok _ _ _ _ _ _ Hfs Hnc).
    rewrite Hp, Hname. reflexivity.
  - intros lon_0 lat_0 parallels Hname Hlon Hlat Hpar Hlen.
    unfold _import_bom_rf3_geodata.
    unfold mbind at 1, IO_bind at 1. rewrite (Dataset_Ok _ _ _ _ _ _ Hfs Hnc).
    rewrite Hp, Hname, Hlon, Hlat, Hpar.
    unfold mbind, IO_bind, mret, IO_ret, close_file, emit, lift, local, getattr,
      parallel.
    destruct parallels as [|p0 [|p1 more]]; simpl in *; done || lia.
Qed.

End BomAlbersFacts.

(** ** AQC: the rain rates in double precision *)

(** X15: with a C library whose [pow] is accurate on the arguments of the
    table, the entries 2 to 250 of the [float64] table are positive and
    strictly increasing: no index of that range decodes to a zero rate,
    and no two decode to the same rate. *)
Theorem aqc_lut_positive_increasing (L : Libm float) (i j : Z) :
  pow_accurate L -> 2 <= i -> i < j -> j <= 250 ->
  exists a b : float,
    lut !! Z.to_nat i = Some a /\ lut !! Z.to_nat j = Some b /\
    PrimFloat.ltb 0 a = true /\ PrimFloat.ltb a b = true.
Proof.
  intros HL Hi Hij Hj. exists (aqc_entry i), (aqc_entry j).
  rewrite !lut_lookup by lia. split; [done|]. split; [done|].
  destruct (aqc_entry_candidate L i HL ltac:(lia)) as (c & Hc & Ha).
  destruct (aqc_entry_candidate L j HL ltac:(lia)) as (c' & Hc' & Hb).
  destruct aqc_candidates_ordered as [Hinc Hpos]. split.
  - exact (proj1 (positive_lookup _ _ _ _ Hpos Hc Ha)).
  - assert (Hlt : (Z.to_nat (i - 2) < Z.to_nat (j - 2))%nat) by lia.
    exact (proj1 (increasing_lookup _ _ _ _ _ _ _ Hinc Hlt Hc Hc' Ha Hb)).
Qed.

(** ** The registry of utility methods *)

Lemma lower_char_idemp (c : ascii) : lower_char (lower_char c) = lower_char c.
Proof. by destruct c as [[] [] [] [] [] [] [] []]. Qed.

Lemma str_lower_idemp (s : string) : str_lower (str_lower s) = str_lower s.
Proof.
  induction s as [|c s IH]; [done|].
  cbn [str_lower]. by rewrite lower_char_idemp, IH.
Qed.

Lemma methods_objects_dom : dom methods_objects = list_to_set supported_names.
Proof.
  unfold methods_objects, supported_names. cbv zeta.
  rewrite !dom_insert_L, dom_empty_L. simpl. set_solver.
Qed.

Section GetMethodFacts.
Variable py_repr : string -> string.
Variable py_str_keys : gmap string method -> string.

(** X21: the registry does not tell the case of ASCII letters: a name and
    its lower-case form get the same answer, as do any two names with the
    same lower-case form, and no name at all stands for [none]. *)
Theorem get_method_case_insensitive (name name' : string) :
  get_method py_repr py_str_keys (Some (str_lower name))
  = get_method py_repr py_str_keys (Some name)
  /\ (str_lower name = str_lower name' ->
      get_method py_repr py_str_keys (Some name)
      = get_method py_repr py_str_keys (Some name'))
  /\ get_method py_repr py_str_keys None = Ok donothing.
Proof.
  unfold get_method. cbv zeta. repeat split.
  - by rewrite str_lower_idemp.
  - by intros ->.
Qed.

(** X22: the registry answers exactly the eighteen names of its table,
    read in lower case: for such a name it returns a callable, for any
    other name of ASCII characters it raises [ValueError] quoting the name
    in lower case and the keys. *)
Theorem get_method_known (name : string) :
  (str_lower name ∈ supported_names ->
   exists m, get_method py_repr py_str_keys (Some name) = Ok m)
  /\ (is_ascii name = true -> str_lower name ∉ supported_names ->
      get_method py_repr py_str_keys (Some name)
      = Raise (ValueError
                 (("Unknown method " +:+ py_repr (str_lower name)
                   +:+ String "010" EmptyString)
                  +:+ ("Supported methods:" +:+ py_str_keys methods_objects)))).
Proof.
  unfold get_method. cbv zeta. split; [intros Hin|intros _ Hin].
  - assert (Hdom : str_lower name ∈ dom methods_objects)
      by (rewrite methods_objects_dom; set_solver).
    apply elem_of_dom in Hdom as [m Hm]. rewrite Hm. by eexists.
  - assert (Hdom : str_lower name ∉ dom methods_objects)
      by (rewrite methods_objects_dom; set_solver).
    apply not_elem_of_dom in Hdom. by rewrite Hdom.
Qed.

End GetMethodFacts.

(** ** Files left open, and whole BoM imports *)

(** X5: the header extraction of the PGM importer opens the file once and
    closes it exactly when it returns: an extraction that raises, as every
    extraction from a file opened as text does, leaves the file open. *)
Theorem pgm_metadata_closes_iff_returns {F : Type} (rt : runtime)
    (fs : filesystem) (gunzip : string -> result string) filename gzipped
    text t (r : result (gmap string (pyval F))) t' :
  reads_as fs gunzip filename gzipped text ->
  _import_pgm_metadata rt fs gunzip filename gzipped t = (r, t') ->
  (exists md, r = Ok md /\ t' = t ++ [EvOpen filename; EvClose filename])
  \/ (exists e, r = Raise e /\ t' = t ++ [EvOpen filename]).
Proof.
  intros Hread. destruct gzipped.
  - rewrite (import_pgm_metadata_gz _ _ _ _ _ _ Hread).
    destruct (pgm_header (lines text)) as [md|e]; intros [= <- <-].
    + left. by eexists.
    + right. by eexists.
  - destruct Hread as (content & Hfs & _).
    rewrite (import_pgm_metadata_plain _ _ _ _ _ _ Hfs).
    intros [= <- <-]. right. by eexists.
Qed.

Section ImportBomRuns.
Context {F : Type} {A : Arith F}.
Variable rt : runtime.
Variable fs : filesystem.
Variable nc_decode : string -> result (dataset F).
Variable py_str : F -> string.

(** X23: with netCDF4 loaded, a dataset that carries the field, both
    instants, each one a [datetime] can hold, and a complete Albers
    variable is imported in two passes
    over the file, each opening and closing it: the field is rescaled by
    the time step derived from the instants, the geodata are the bare
    projection definition, and the metadata still give the time step 0. *)
Theorem import_bom_rf3_returns filename content ds p vt st projection
    (lon_0 lat_0 p0 p1 : F) (more : list F) t :
  netcdf4_imported rt = true ->
  fs !! filename = Some content -> nc_decode content = Ok ds ->
  ds_precipitation ds = Some p ->
  ds_valid_time ds = Some vt -> ds_start_time ds = Some st ->
  datetime_range vt -> datetime_range st ->
  ds_proj ds = Some projection ->
  grid_mapping_name projection = Some "albers_conical_equal_area" ->
  longitude_of_central_meridian projection = Some lon_0 ->
  latitude_of_projection_origin projection = Some lat_0 ->
  standard_parallel projection = Some (p0 :: p1 :: more) ->
  exists metadata : gmap string (pyval F),
    import_bom_rf3 rt fs nc_decode py_str filename t
    = (Ok (Some (let time_step := timedelta_seconds vt st / 60 in
                 if decide (time_step = 0) then p
                 else amap (fun x => fmul x (fdiv (of_dec 60.0)
                                               (of_int time_step))) p),
           Some ("+proj=aea  +lon_0=" +:+ py_str lon_0 +:+ " +lat_0="
                 +:+ py_str lat_0 +:+ " +lat_1=" +:+ py_str p0 +:+ " +lat_2="
                 +:+ py_str p1),
           metadata),
       t ++ [EvPrint filename; EvOpen filename; EvClose filename;
             EvOpen filename; EvClose filename])
    /\ metadata !! "institution" = Some (VStr "Bureau of Meteorology")
    /\ metadata !! "timestep" = Some (VInt 0)
    /\ metadata !! "unit" = Some (VStr "mm/h").
Proof.
  intros Hrt Hfs Hnc Hp Hv Hs Hvr Hsr Hproj Hname Hlon Hlat Hpar.
  eexists. split.
  - unfold import_bom_rf3. rewrite Hrt. change (negb true) with false.
    cbv iota. unfold mbind at 1, IO_bind at 1.
    rewrite (bom_data_present _ _ _ _ _ _ _ _ _ Hfs Hnc Hp Hv Hs Hvr Hsr).
    unfold mbind at 1, IO_bind at 1.
    rewrite (bom_geodata_albers _ _ _ _ _ _ _ _ _ _ _ _ _ Hfs Hnc Hproj Hname
               Hlon Hlat Hpar).
    unfold mret, IO_ret. by rewrite <- !app_assoc.
  - unfold _import_bom_rf3_metadata. cbv zeta. repeat split.
Qed.

End ImportBomRuns.

(** ** Runs on the sample inputs *)

Lemma pgm_metadata_constants_witness :
  fmi_metadata !! "institution" = Some (VStr "Finnish Meteorological Institute")
  /\ fmi_metadata !! "timestep" = Some (VInt 5)
  /\ fmi_metadata !! "unit" = Some (VStr "dBZ")
  /\ exists n, fmi_metadata !! "missingval" = Some (VInt n).
Proof.
  apply (pgm_metadata_constants full_runtime fmi_fs gunzip_stored
           "fmi.pgm.gz" true []
           fmi_metadata [EvOpen "fmi.pgm.gz"; EvClose "fmi.pgm.gz"]).
  vm_compute. reflexivity.
Defined.




Lemma pgm_geodata_keys_witness :
  first_of fmi_metadata "type" = Ok "stereographic"
  /\ dom fmi_geodata = geodata_keys
  /\ fmi_geodata !! "yorigin" = Some (VStr "upper")
  /\ exists lon_0 lat_0 lat_ts,
       first_of fmi_metadata "centrallongitude" = Ok lon_0 /\
       first_of fmi_metadata "centrallatitude" = Ok lat_0 /\
       first_of fmi_metadata "truelatitude" = Ok lat_ts /\
       fmi_geodata !! "projection"
       = Some (VStr ("+proj=stere  +lon_0=" +:+ lon_0 +:+ "E +lat_0=" +:+ lat_0
                     +:+ "N +lat_ts=" +:+ lat_ts
                     +:+ " +a=6371288 +x_0=380886.310 +y_0=3395677.920 +no_defs")).
Proof.
  apply (pgm_geodata_keys fmi_proj fmi_float fmi_metadata fmi_geodata).
  vm_compute. reflexivity.
Defined.

Lemma missing_file_raises_witness :
  import_pgm (F:=xreal) full_runtime ∅ no_gunzip no_raster no_proj no_float
    "absent.pgm" false []
  = (Raise (IOError "absent.pgm"), [] ++ [EvOpen "absent.pgm"])
  /\ import_aqc (F:=xreal) full_runtime ∅ no_raster "absent.pgm" []
     = (Raise (IOError "absent.pgm"), [] ++ [EvOpen "absent.pgm"])
  /\ import_bom_rf3 (F:=xreal) full_runtime ∅ no_dataset no_str "absent.pgm" []
     = (Raise (IOError "absent.pgm"),
        [] ++ [EvPrint "absent.pgm"; EvOpen "absent.pgm"]).
Proof.
  destruct (missing_file_raises (F:=xreal) full_runtime ∅ no_gunzip no_raster
              no_raster no_dataset no_proj no_float no_str "absent.pgm" false
              [] (lookup_empty _))
    as (Hpgm & Haqc & Hbom).
  split; [|split].
  - apply Hpgm. reflexivity.
  - apply Haqc. reflexivity.
  - apply Hbom. reflexivity.
Defined.

Lemma decoded_field_shape_witness :
  shape ([[of_dec 0.0; fnan]] : array xreal) = shape [[0; 255]].
Proof.
  apply (proj2 (decoded_field_shape (F:=xreal)) [[0; 255]]).
  apply mapM_Ok. constructor; [|constructor].
  apply mapM_Ok. constructor; [by rewrite lut_item_Ok by lia|].
  constructor; [by rewrite lut_item_Ok by lia|constructor].
Defined.

Lemma pgm_decode_injective_witness :
  pixel (pgm_decode (F:=float) 255 [[64; 64]; [255; 0]]) 0 0
  = pixel (pgm_decode 255 [[64; 64]; [255; 0]]) 0 1
  /\ 64 = 64.
Proof.
  split; [reflexivity|].
  apply (pgm_decode_injective 255 [[64; 64]; [255; 0]] 0 0 0 1 64 64);
    try reflexivity; lia.
Defined.

Lemma pgm_decode_range_witness :
  exists v : float,
    pixel (pgm_decode 255 [[64; 66]; [255; 0]]) 1 1 = Some v /\
    fle (-32)%float v /\ fle v 95.5%float.
Proof.
  apply (pgm_decode_range 255 [[64; 66]; [255; 0]] 1 1 0).
  - reflexivity.
  - lia.
  - lia.
Defined.

Lemma import_aqc_field_witness :
  exists (R : array xreal) (metadata : gmap string (pyval xreal)),
    import_aqc full_runtime aqc_fs aqc_raster "aqc.gif" []
    = (Ok (R, _import_aqc_geodata, metadata), [] ++ [EvOpen "aqc.gif"])
    /\ (forall r c i,
          pixel [[0; 100]; [255; 251]] r c = Some i ->
          pixel R r c = Some (aqc_entry i))
    /\ metadata !! "institution" = Some (VStr "MeteoSwiss")
    /\ metadata !! "timestep" = Some (VInt 5)
    /\ metadata !! "unit" = Some (VStr "mm/h").
Proof.
  apply (import_aqc_field (F:=xreal) full_runtime aqc_fs aqc_raster "aqc.gif"
           "GIF89a" [[0; 100]; [255; 251]] []).
  - reflexivity.
  - reflexivity.
  - reflexivity.
  - intros [|[|r]] [|[|c]] i Hp; vm_compute in Hp; try discriminate Hp;
      injection Hp as <-; lia.
Defined.

Lemma apply_lut_bounds_witness :
  apply_lut (F:=xreal) [[0; 256]] = Raise IndexError.
Proof.
  apply (proj2 (apply_lut_bounds (F:=xreal)) [[0; 256]] 0%nat 1%nat 256).
  - reflexivity.
  - lia.
Defined.

Lemma bom_geodata_error_leaves_open_witness :
  _import_bom_rf3_geodata bom_fs (nc_const bom_unnamed) no_str "rf3.nc" []
  = (Raise (AttributeError "grid_mapping_name"), [] ++ [EvOpen "rf3.nc"])
  /\ _import_bom_rf3_geodata bom_fs (nc_const bom_one_parallel) no_str
       "rf3.nc" []
     = (Raise IndexError, [] ++ [EvOpen "rf3.nc"]).
Proof.
  split.
  - apply (bom_geodata_error_leaves_open bom_fs (nc_const bom_unnamed) no_str
             "rf3.nc" "CDF" bom_unnamed
             {| grid_mapping_name := None;
                longitude_of_central_meridian := None;
                latitude_of_projection_origin := None;
                standard_parallel := None |} []); reflexivity.
  - apply (proj2 (bom_geodata_error_leaves_open bom_fs
                    (nc_const bom_one_parallel) no_str "rf3.nc" "CDF"
                    bom_one_parallel
                    {| grid_mapping_name := Some "albers_conical_equal_area";
                       longitude_of_central_meridian := Some 132%float;
                       latitude_of_projection_origin := Some 0%float;
                       standard_parallel := Some [(-18)%float] |} []
                    eq_refl eq_refl eq_refl)
             132%float 0%float [(-18)%float]); try reflexivity.
    simpl. lia.
Defined.

Lemma aqc_lut_positive_increasing_witness :
  exists a b : float,
    @lut float binary64 tabulated_libm !! Z.to_nat 2 = Some a /\
    @lut float binary64 tabulated_libm !! Z.to_nat 250 = Some b /\
    PrimFloat.ltb 0 a = true /\ PrimFloat.ltb a b = true.
Proof.
  apply (aqc_lut_positive_increasing tabulated_libm 2 250 tabulated_accurate);
    lia.
Defined.

Lemma get_method_case_insensitive_witness :
  get_method quote_repr keys_str (Some "dBZ")
  = get_method quote_repr keys_str (Some "DBZ").
Proof.
  apply (proj1 (proj2 (get_method_case_insensitive quote_repr keys_str
                         "dBZ" "DBZ"))).
  reflexivity.
Defined.

Lemma get_method_known_witness :
  (exists m, get_method quote_repr keys_str (Some "Box-Cox") = Ok m)
  /\ get_method quote_repr keys_str (Some "log10")
     = Raise (ValueError
                (("Unknown method " +:+ quote_repr (str_lower "log10")
                  +:+ String "010" EmptyString)
                 +:+ ("Supported methods:" +:+ keys_str methods_objects))).
Proof.
  split.
  - apply (proj1 (get_method_known quote_repr keys_str "Box-Cox")).
    apply list_elem_of_In. vm_compute.
    repeat first [left; reflexivity | right].
  - apply (proj2 (get_method_known quote_repr keys_str "log10"));
      [reflexivity|].
    intros Hin%list_elem_of_In. vm_compute in Hin.
    repeat (destruct Hin as [Hin|Hin]; [discriminate Hin|]). exact Hin.
Defined.

Lemma pgm_metadata_closes_iff_returns_witness :
  (exists md : gmap string (pyval float),
      Raise IndexError = Ok md /\
      [EvOpen "truncated.pgm.gz"]
      = [] ++ [EvOpen "truncated.pgm.gz"; EvClose "truncated.pgm.gz"])
  \/ (exists e,
        Raise (A:=gmap string (pyval float)) IndexError = Raise e /\
        [EvOpen "truncated.pgm.gz"] = [] ++ [EvOpen "truncated.pgm.gz"]).
Proof.
  apply (pgm_metadata_closes_iff_returns full_runtime pgm_truncated_fs
           gunzip_stored "truncated.pgm.gz" true pgm_truncated_text []).
  - exists (gz pgm_truncated_text). split; vm_compute; reflexivity.
  - vm_compute. reflexivity.
Defined.

Lemma import_bom_rf3_returns_witness :
  exists metadata : gmap string (pyval float),
    import_bom_rf3 full_runtime bom_fs (nc_const bom_complete) no_str
      "rf3.nc" []
    = (Ok (Some (let time_step := timedelta_seconds 300 0 / 60 in
                 if decide (time_step = 0) then [[5%float]]
                 else amap (fun x => fmul x (fdiv (of_dec 60.0)
                                               (of_int time_step)))
                        [[5%float]]),
           Some ("+proj=aea  +lon_0=" +:+ no_str 132%float +:+ " +lat_0="
                 +:+ no_str 0%float +:+ " +lat_1=" +:+ no_str (-18)%float
                 +:+ " +lat_2=" +:+ no_str (-36)%float),
           metadata),
       [] ++ [EvPrint "rf3.nc"; EvOpen "rf3.nc"; EvClose "rf3.nc";
              EvOpen "rf3.nc"; EvClose "rf3.nc"])
    /\ metadata !! "institution" = Some (VStr "Bureau of Meteorology")
    /\ metadata !! "timestep" = Some (VInt 0)
    /\ metadata !! "unit" = Some (VStr "mm/h").
Proof.
  apply (import_bom_rf3_returns full_runtime bom_fs (nc_const bom_complete)
           no_str "rf3.nc" "CDF" bom_complete [[5%float]] 300 0
           {| grid_mapping_name := Some "albers_conical_equal_area";
              longitude_of_central_meridian := Some 132%float;
              latitude_of_projection_origin := Some 0%float;
              standard_parallel := Some [(-18)%float; (-36)%float] |}
           132%float 0%float (-18)%float (-36)%float [] []);
    try reflexivity; apply datetime_range_sample; reflexivity.
Defined.

(** ** BoM: the three regular outcomes of the helpers *)

Section BomOutcomes.
Context {F : Type} {A : Arith F}.
Variable fs : filesystem.
Variable nc_decode : string -> result (dataset F).
Variable py_str : F -> string.

(** X1: in the BoM importer, with the field and both instants present,
    each an instant a [datetime] can hold, the field is multiplied by
    [60 / time_step] when [time_step], the whole minutes in the seconds
    field of [valid_time - start_time] (whole days left out), is not zero,
    and returned as read when it is; the file is opened once and closed. *)
Theorem bom_field_rescaled_by_time_step filename content ds p vt st t :
  fs !! filename = Some content -> nc_decode content = Ok ds ->
  ds_precipitation ds = Some p ->
  ds_valid_time ds = Some vt -> ds_start_time ds = Some st ->
  datetime_range vt -> datetime_range st ->
  _import_bom_rf3_data fs nc_decode filename t
  = (Ok (Some (let time_step := timedelta_seconds vt st / 60 in
               if decide (time_step = 0) then p
               else amap (fun x => fmul x (fdiv (of_dec 60.0) (of_int time_step))) p)),
     t ++ [EvPrint filename; EvOpen filename; EvClose filename]).
Proof. apply bom_data_present. Qed.

(** X2: in the BoM importer a dataset without the variable
    [precipitation] yields the field [None]; the file is opened once and
    closed. *)
Theorem bom_field_absent_is_none filename content ds t :
  fs !! filename = Some content -> nc_decode content = Ok ds ->
  ds_precipitation ds = None ->
  _import_bom_rf3_data fs nc_decode filename t
  = (Ok None, t ++ [EvPrint filename; EvOpen filename; EvClose filename]).
Proof. apply bom_data_absent. Qed.

(** X19: in the BoM importer a variable [proj] of the Albers family that
    carries the central meridian, the latitude of origin and at least two
    standard parallels yields the definition assembled from [str] of these
    four numbers; the file is opened once and closed. *)
Theorem bom_albers_definition filename content ds projection
    (lon_0 lat_0 p0 p1 : F) (more : list F) t :
  fs !! filename = Some content -> nc_decode content = Ok ds ->
  ds_proj ds = Some projection ->
  grid_mapping_name projection = Some "albers_conical_equal_area" ->
  longitude_of_central_meridian projection = Some lon_0 ->
  latitude_of_projection_origin projection = Some lat_0 ->
  standard_parallel projection = Some (p0 :: p1 :: more) ->
  _import_bom_rf3_geodata fs nc_decode py_str filename t
  = (Ok (Some ("+proj=aea  +lon_0=" +:+ py_str lon_0 +:+ " +lat_0="
               +:+ py_str lat_0 +:+ " +lat_1=" +:+ py_str p0 +:+ " +lat_2="
               +:+ py_str p1)),
     t ++ [EvOpen filename; EvClose filename]).
Proof. apply bom_geodata_albers. Qed.

End BomOutcomes.

Lemma bom_field_rescaled_by_time_step_witness :
  _import_bom_rf3_data bom_fs (nc_const bom_five_minutes) "rf3.nc" []
  = (Ok (Some (let time_step := timedelta_seconds 300 0 / 60 in
               if decide (time_step = 0) then [[5%float]]
               else amap (fun x => fmul x (fdiv (of_dec 60.0) (of_int time_step)))
                      [[5%float]])),
     [] ++ [EvPrint "rf3.nc"; EvOpen "rf3.nc"; EvClose "rf3.nc"]).
Proof.
  apply (bom_field_rescaled_by_time_step bom_fs (nc_const bom_five_minutes)
           "rf3.nc" "CDF" bom_five_minutes [[5%float]] 300 0 []);
    try reflexivity; apply datetime_range_sample; reflexivity.
Defined.

Lemma bom_field_absent_is_none_witness :
  _import_bom_rf3_data bom_fs (nc_const bom_mercator) "rf3.nc" []
  = (Ok None, [] ++ [EvPrint "rf3.nc"; EvOpen "rf3.nc"; EvClose "rf3.nc"]).
Proof.
  apply (bom_field_absent_is_none bom_fs (nc_const bom_mercator) "rf3.nc"
           "CDF" bom_mercator []); reflexivity.
Defined.

Lemma bom_albers_definition_witness :
  _import_bom_rf3_geodata bom_fs (nc_const bom_albers) no_str "rf3.nc" []
  = (Ok (Some ("+proj=aea  +lon_0=" +:+ no_str 132%float +:+ " +lat_0="
               +:+ no_str 0%float +:+ " +lat_1=" +:+ no_str (-18)%float
               +:+ " +lat_2=" +:+ no_str (-36)%float)),
     [] ++ [EvOpen "rf3.nc"; EvClose "rf3.nc"]).
Proof.
  apply (bom_albers_definition bom_fs (nc_const bom_albers) no_str "rf3.nc"
           "CDF" bom_albers
           {| grid_mapping_name := Some "albers_conical_equal_area";
              longitude_of_central_meridian := Some 132%float;
              latitude_of_projection_origin := Some 0%float;
              standard_parallel := Some [(-18)%float; (-36)%float] |}
           132%float 0%float (-18)%float (-36)%float [] []);
    reflexivity.
Defined.
